(** * drrepltool, [copy] command: the manifest driver of copy-main.go

    A shallow embedding of [checkCopyArgsAndInit], [initMinioClient] and
    [copyAction], with the library calls they make, and the properties of
    the manifest reader, of the start-up checks and of the final report.

    Go strings are byte sequences: they are [string] here (a list of
    8-bit [ascii]).  Go's [int] is 64 bits wide on the platforms the tool
    is built for; it is [Z], and the only arithmetic on it is [skip--]
    under the guard [skip > 0], which cannot wrap. *)

From Stdlib Require Import String Ascii List ZArith Bool Lia.
Import ListNotations.
Open Scope string_scope.
Open Scope list_scope.

(* ================================================================== *)
(** ** Package [strings], as far as copy-main.go calls it *)

Module Strings.

(** [s\[:m\]] and [s\[m+1:\]] for [m = strings.Index(s, sep)] with a
    one-byte separator; [None] stands for [m < 0]. *)
Fixpoint cutAt (sep : ascii) (s : string) : option (string * string) :=
  match s with
  | EmptyString => None
  | String c s' =>
      if Ascii.eqb c sep then Some (EmptyString, s')
      else match cutAt sep s' with
           | Some (a, b) => Some (String c a, b)
           | None => None
           end
  end.

(** [strings.SplitN(s, sep, n)] for a one-byte [sep] and [n >= 0]: the loop
    of [genSplit], which cuts at most [n-1] times and stores the rest of
    the string whole in the last slot.  [n = 0] returns the nil slice. *)
Fixpoint SplitN (s : string) (sep : ascii) (n : nat) : list string :=
  match n with
  | O => []
  | S O => [s]
  | S n' =>
      match cutAt sep s with
      | Some (a, b) => a :: SplitN b sep n'
      | None => [s]
      end
  end.

(** [strings.Split(s, sep)], that is [genSplit] with [n = -1]: every
    separator cuts.  These are the comma-separated fields of a line. *)
Fixpoint Split (s : string) (sep : ascii) : list string :=
  match s with
  | EmptyString => [EmptyString]
  | String c s' =>
      if Ascii.eqb c sep then EmptyString :: Split s' sep
      else match Split s' sep with
           | f :: fs => String c f :: fs
           | [] => [String c EmptyString]
           end
  end.

(** [strings.Join(elems, sep)]. *)
Fixpoint Join (elems : list string) (sep : string) : string :=
  match elems with
  | [] => EmptyString
  | [x] => x
  | x :: rest => (x ++ sep ++ Join rest sep)%string
  end.

(** The table [asciiSpace] of package strings. *)
Definition asciiSpace (c : ascii) : bool :=
  match nat_of_ascii c with
  | 9 | 10 | 11 | 12 | 13 | 32 => true
  | _ => false
  end.

Fixpoint trimLeft (s : string) : string :=
  match s with
  | String c s' => if asciiSpace c then trimLeft s' else s
  | EmptyString => EmptyString
  end.

Fixpoint trimRight (s : string) : string :=
  match s with
  | EmptyString => EmptyString
  | String c s' =>
      match trimRight s' with
      | EmptyString => if asciiSpace c then EmptyString else String c EmptyString
      | t => String c t
      end
  end.

(** The ASCII path of [strings.TrimSpace]: both loops of the function
    on a string whose bytes are all below [utf8.RuneSelf]. *)
Definition TrimSpaceASCII (s : string) : string := trimRight (trimLeft s).

End Strings.

Definition comma : ascii := ","%char.

(* ================================================================== *)
(** ** Data *)

(** Go's [error], by its message. *)
Definition error := string.

(** A Go result pair [(v, err)]: either the value or the error. *)
Inductive orError (A : Type) : Type :=
| Value (a : A)
| Error (e : error).
Arguments Value {A} a.
Arguments Error {A} e.

(** [objInfo], with the four fields the literal in [copyAction] fills. *)
Record objInfo := {
  bucket : string;
  object : string;
  versionID : string;
  deleteMarker : bool
}.

(** [*url.URL], the two fields [initMinioClient] reads. *)
Record URL := { Scheme : string; Host : string }.

(** [miniogo.Options], the fields of the literal that depend on the
    arguments; the rest of the transport is constant. *)
Record Options := {
  CredsAccessKey : string;
  CredsSecretKey : string;
  Secure : bool;
  InsecureSkipVerify : bool
}.

(** [*miniogo.Client]. *)
Record Client := { clientEndpoint : string; clientOptions : Options }.

(** The library functions and the one package constant that copy-main.go
    uses and does not define. *)
Class GoLib := {
  TrimSpace : string -> string;                       (* strings.TrimSpace *)
  url_Parse : string -> orError URL;                  (* url.Parse *)
  miniogo_New : string -> Options -> orError Client;  (* miniogo.New *)
  humanize_Comma : Z -> string;                       (* humanize.Comma *)
  fmt_d : Z -> string;                                (* the verb %d on an int64 *)
  path_Join : string -> string -> string;             (* path.Join *)
  objListFile : string                                (* the manifest's file name *)
}.

(** The flags of the [copy] command, as [cli.Context] returns them:
    [ctx.String], [ctx.Bool], [ctx.Int]. *)
Record Context := {
  flag_debug : bool;
  flag_src_endpoint : string;
  flag_src_access_key : string;
  flag_src_secret_key : string;
  flag_src_bucket : string;
  flag_endpoint : string;
  flag_access_key : string;
  flag_secret_key : string;
  flag_bucket : string;
  flag_data_dir : string;
  flag_versions : bool;
  flag_insecure : bool;
  flag_skip : Z;
  flag_fake : bool
}.

(** The package-level variables [checkCopyArgsAndInit] assigns. *)
Record globals := {
  debug : bool;
  srcEndpoint : string;
  srcAccessKey : string;
  srcSecretKey : string;
  srcBucket : string;
  tgtEndpoint : string;
  tgtAccessKey : string;
  tgtSecretKey : string;
  tgtBucket : string;
  dirPath : string;
  versions : bool
}.

(** What [bufio.Scanner] delivers from an opened manifest: the lines
    [scanner.Text()] returns, in order, and then [scanner.Err()]. *)
Record File := { fileLines : list string; fileErr : option error }.

(** One operation on a Storage Gateway client. *)
Inductive gwcall :=
| SrcGet (o : objInfo)
| TgtPut (o : objInfo)
| TgtDelete (o : objInfo).

(** The answers of the two Storage Gateways: whether the operation on a
    record succeeds. *)
Record Gateway := {
  getOK : objInfo -> bool;
  putOK : objInfo -> bool;
  deleteOK : objInfo -> bool
}.

(** Everything outside the process that a run depends on. *)
Record World := {
  os_Open : string -> orError File;   (* os.Open, then the scanner *)
  elapsedSecs : Z;                    (* int64(end.Sub(start).Seconds()) *)
  gateway : Gateway
}.

(** What the process writes, oldest line first.  [logDMsg] and [logMsg]
    are defined outside copy-main.go: a line here records the call, with
    its arguments; whether [logDMsg] prints depends on [debug]. *)
Inductive output :=
| DebugLog (msg : string) (err : option error)   (* logDMsg(msg, err) *)
| Log (msg : string)                             (* logMsg(msg) *)
| FatalLog (msg : string)                        (* log.Fatalln, console.Fatalln *)
| WouldCopy (o : objInfo)                        (* worker, dry run *)
| WouldDelete (o : objInfo)                      (* worker, dry run *)
| Replicated (o : objInfo)                       (* worker, debug level *)
| ReplicationFailed (o : objInfo).               (* worker, error level *)

(** A run-time panic of the Go runtime. *)
Inductive panic :=
| IndexOutOfRange (index len : nat).

(* ================================================================== *)
(** ** The core that copy-main.go calls: session, workers, ledger *)

Module Core.

(** Modelled from the spec: the Replication Ledger of section 4.4, whose
    source is not in copy-main.go.  Two counters, total processed and
    total failed. *)
Record ledger := { processed : Z; failed : Z }.

(** Modelled from the spec: the ledger of a new session (section 3; the
    ledger's source is missing). *)
Definition newLedger : ledger := {| processed := 0; failed := 0 |}.

(** Modelled from the spec: the atomic increment of the processed
    counter (section 4.4; the ledger's source is missing). *)
Definition incProcessed (l : ledger) : ledger :=
  {| processed := processed l + 1; failed := failed l |}.

(** Modelled from the spec: the atomic increment of the failed counter
    (section 4.4; the ledger's source is missing). *)
Definition incFailed (l : ledger) : ledger :=
  {| processed := processed l; failed := failed l + 1 |}.

(** Modelled from the spec: the Session State of section 3 behind the
    missing type of [copyState]: the counters, the outstanding tasks,
    and, to observe the workers, the gateway calls made so far. *)
Record session := {
  created : bool;             (* newcopyState has run *)
  started : bool;             (* init has run: the workers pull from the queue *)
  queue : list objInfo;       (* enqueued and not yet completed, oldest first *)
  drained : bool;             (* finish has returned *)
  led : ledger;
  calls : list gwcall
}.

(** The package-level [copyState] before [newcopyState] has run. *)
Definition noSession : session :=
  {| created := false; started := false; queue := []; drained := false;
     led := newLedger; calls := [] |}.

(** Modelled from the spec: [create] of section 4.1, first half, the
    missing [newcopyState]: a fresh session with an empty queue. *)
Definition newcopyState : session :=
  {| created := true; started := false; queue := []; drained := false;
     led := newLedger; calls := [] |}.

(** Modelled from the spec: [create] of section 4.1, second half, the
    missing method [init]: the workers are spawned. *)
Definition init (cs : session) : session :=
  {| created := created cs; started := true; queue := queue cs;
     drained := drained cs; led := led cs; calls := calls cs |}.

(** Modelled from the spec: [enqueue] of section 4.1, the missing method
    [queueUploadTask]: the record joins the queue at its end. *)
Definition queueUploadTask (o : objInfo) (cs : session) : session :=
  {| created := created cs; started := started cs; queue := queue cs ++ [o];
     drained := drained cs; led := led cs; calls := calls cs |}.

(** Modelled from the spec: steps 2 and 3 of section 4.2 (the workers'
    source is missing): a delete marker is one delete on the target, any
    other record is a read from the source and then a write to the
    target.  The result says whether the operation succeeded. *)
Definition replicate (gw : Gateway) (o : objInfo) : bool * list gwcall :=
  if deleteMarker o then (deleteOK gw o, [TgtDelete o])
  else if getOK gw o then (putOK gw o, [SrcGet o; TgtPut o])
  else (false, [SrcGet o]).

(** Modelled from the spec: the per-record decision logic of section
    4.2, steps 1, 4 and 5 (the workers' source is missing).  A dry run
    logs and counts; a live run counts the record as processed and, when
    the operation failed, as failed too. *)
Definition worker (dryRun : bool) (gw : Gateway) (o : objInfo) (l : ledger)
  : ledger * list gwcall * list output :=
  if dryRun then
    (incProcessed l, [], [if deleteMarker o then WouldDelete o else WouldCopy o])
  else
    let (ok, cs) := replicate gw o in
    if ok then (incProcessed l, cs, [Replicated o])
    else (incFailed (incProcessed l), cs, [ReplicationFailed o]).

(** Modelled from the spec: the worker pool of section 4.2 on a whole
    queue (the workers' source is missing), one record after the other.
    The workers run beside the scanner loop and in any order; the
    counters after drain do not depend on that order, so this one stands
    for all of them.  How far the workers have come when a run exits or
    panics before drain is not modelled: the queue then stays as the loop
    left it. *)
Fixpoint workAll (dryRun : bool) (gw : Gateway) (tasks : list objInfo) (l : ledger)
  : ledger * list gwcall * list output :=
  match tasks with
  | [] => (l, [], [])
  | o :: rest =>
      let '(l1, c1, o1) := worker dryRun gw o l in
      let '(l2, c2, o2) := workAll dryRun gw rest l1 in
      (l2, c1 ++ c2, o1 ++ o2)
  end.

(** Modelled from the spec: [drain] of section 4.1, the missing method
    [finish]: when it returns the queue is empty and every task has
    completed.  The workers' log lines are returned with the session. *)
Definition finish (dryRun : bool) (gw : Gateway) (cs : session)
  : session * list output :=
  let '(l, c, o) := workAll dryRun gw (queue cs) (led cs) in
  ({| created := created cs; started := started cs; queue := [];
      drained := true; led := l; calls := calls cs ++ c |}, o).

(** Modelled from the spec: [processedCount] of section 4.1, the missing
    method [getCount]. *)
Definition getCount (cs : session) : Z := processed (led cs).

(** Modelled from the spec: [failedCount] of section 4.1, the missing
    method [getFailCount]. *)
Definition getFailCount (cs : session) : Z := failed (led cs).

(** *** The ledger under concurrent workers *)

(** Modelled from the spec: a worker between two atomic increments
    (sections 4.2 and 5; the workers' source is missing).  The counters
    are shared by all workers and each increment is one atomic step.  A
    worker that finds its task failed increments the processed counter
    and then the failed counter, in the order section 4.2 names them;
    between the two it is in phase [Failing], and other workers may
    step. *)
Inductive phase := Idle | Failing.

(** Modelled from the spec: the worker pool of sections 4.2 and 5 around
    the ledger (its source is missing).  [completedOk] and
    [completedFailed] count the tasks whose handling has ended. *)
Record pool := {
  poolLedger : ledger;
  phases : list phase;
  completedOk : Z;
  completedFailed : Z
}.

Definition startPool (workers : nat) : pool :=
  {| poolLedger := newLedger; phases := repeat Idle workers;
     completedOk := 0; completedFailed := 0 |}.

Fixpoint setPhase (i : nat) (ph : phase) (l : list phase) : list phase :=
  match l, i with
  | [], _ => []
  | _ :: t, O => ph :: t
  | h :: t, S i' => h :: setPhase i' ph t
  end.

Definition isFailing (ph : phase) : bool :=
  match ph with Failing => true | Idle => false end.

Definition failingCount (l : list phase) : Z :=
  Z.of_nat (length (filter isFailing l)).

(** Modelled from the spec: one atomic step of worker [i] (section 4.2,
    steps 4 and 5; the workers' source is missing): a task that
    succeeded, or was simulated, is counted as processed; a task that
    failed is counted as processed and, in a second step, as failed. *)
Inductive poolStep : pool -> pool -> Prop :=
| StepSucceeded (p : pool) (i : nat) :
    nth_error (phases p) i = Some Idle ->
    poolStep p {| poolLedger := incProcessed (poolLedger p);
                  phases := phases p;
                  completedOk := completedOk p + 1;
                  completedFailed := completedFailed p |}
| StepFailedCount (p : pool) (i : nat) :
    nth_error (phases p) i = Some Idle ->
    poolStep p {| poolLedger := incProcessed (poolLedger p);
                  phases := setPhase i Failing (phases p);
                  completedOk := completedOk p;
                  completedFailed := completedFailed p |}
| StepFailedMark (p : pool) (i : nat) :
    nth_error (phases p) i = Some Failing ->
    poolStep p {| poolLedger := incFailed (poolLedger p);
                  phases := setPhase i Idle (phases p);
                  completedOk := completedOk p;
                  completedFailed := completedFailed p + 1 |}.

(** Modelled from the spec: the states a pool of [workers] workers
    reaches from a new session, under any interleaving (section 5). *)
Inductive reachable (workers : nat) : pool -> Prop :=
| ReachStart : reachable workers (startPool workers)
| ReachStep (p q : pool) :
    reachable workers p -> poolStep p q -> reachable workers q.

Definition quiescent (p : pool) : Prop :=
  Forall (fun ph => ph = Idle) (phases p).

End Core.

(* ================================================================== *)
(** ** The process: state, exits and panics *)

(** The package-level variables that change during [copyAction], and the
    console. *)
Record state := {
  dryRun : bool;
  copyState : Core.session;
  console : list output
}.

Definition initialState : state :=
  {| dryRun := false; copyState := Core.noSession; console := [] |}.

(** How a computation ends: it returns, the process exits ([os.Exit]
    under [log.Fatalln] and [console.Fatalln]), or the runtime panics. *)
Inductive result (A : Type) : Type :=
| Ok (a : A)
| Exit (code : Z)
| Panicked (p : panic).
Arguments Ok {A} a.
Arguments Exit {A} code.
Arguments Panicked {A} p.

Definition M (A : Type) : Type := state -> result A * state.

Definition ret {A} (a : A) : M A := fun s => (Ok a, s).

Definition bind {A B} (m : M A) (k : A -> M B) : M B :=
  fun s =>
    match m s with
    | (Ok a, s') => k a s'
    | (Exit c, s') => (Exit c, s')
    | (Panicked p, s') => (Panicked p, s')
    end.

Notation "x <- m ;; k" := (bind m (fun x => k))
  (at level 61, m at next level, right associativity).
Notation "m ;; k" := (bind m (fun _ => k))
  (at level 61, right associativity).

Definition when (b : bool) (m : M unit) : M unit := if b then m else ret tt.

Definition emit (o : list output) : M unit :=
  fun s => (Ok tt, {| dryRun := dryRun s; copyState := copyState s;
                      console := console s ++ o |}).

Definition logDMsg (msg : string) (err : option error) : M unit :=
  emit [DebugLog msg err].

Definition logMsg (msg : string) : M unit := emit [Log msg].

(** [log.Fatalln] and [console.Fatalln]: the message, then [os.Exit(1)]. *)
Definition Fatalln {A} (msg : string) : M A :=
  fun s => (Exit 1, {| dryRun := dryRun s; copyState := copyState s;
                       console := console s ++ [FatalLog msg] |}).

(** The index expression [slc\[i\]]. *)
Definition index (slc : list string) (i : nat) : M string :=
  fun s =>
    match nth_error slc i with
    | Some x => (Ok x, s)
    | None => (Panicked (IndexOutOfRange i (length slc)), s)
    end.

Definition setDryRun (b : bool) : M unit :=
  fun s => (Ok tt, {| dryRun := b; copyState := copyState s; console := console s |}).

Definition getDryRun : M bool := fun s => (Ok (dryRun s), s).

Definition setCopyState (cs : Core.session) : M unit :=
  fun s => (Ok tt, {| dryRun := dryRun s; copyState := cs; console := console s |}).

Definition getCopyState : M Core.session := fun s => (Ok (copyState s), s).

(** [copyState.queueUploadTask(obj)]. *)
Definition queueUploadTask (obj : objInfo) : M unit :=
  cs <- getCopyState ;; setCopyState (Core.queueUploadTask obj cs).

(** [copyState.finish(ctx)]; the workers read the package-level
    [dryRun]. *)
Definition finish (gw : Gateway) : M unit :=
  cs <- getCopyState ;;
  dr <- getDryRun ;;
  let (cs', o) := Core.finish dr gw cs in
  setCopyState cs' ;; emit o.

(** The conversion [int64(x)] of a 64-bit integer, signed or unsigned. *)
Definition int64 (x : Z) : Z := ((x + 2 ^ 63) mod 2 ^ 64 - 2 ^ 63)%Z.

(* ================================================================== *)
(** ** copy-main.go *)

Section CopyMain.

Context {lib : GoLib}.

(** The assignments at the head of [checkCopyArgsAndInit], lines
    100-111. *)
Definition readFlags (ctx : Context) : globals :=
  {| debug := flag_debug ctx;
     srcEndpoint := flag_src_endpoint ctx;
     srcAccessKey := flag_src_access_key ctx;
     srcSecretKey := flag_src_secret_key ctx;
     srcBucket := flag_src_bucket ctx;
     tgtEndpoint := flag_endpoint ctx;
     tgtAccessKey := flag_access_key ctx;
     tgtSecretKey := flag_secret_key ctx;
     tgtBucket := flag_bucket ctx;
     dirPath := flag_data_dir ctx;
     versions := flag_versions ctx |}.

(** [checkCopyArgsAndInit], lines 99-147.  The package-level variables
    it assigns are the record it returns. *)
Definition checkCopyArgsAndInit (ctx : Context) : M globals :=
  let g := readFlags ctx in
  when (tgtEndpoint g =? "") (Fatalln "--endpoint is not provided for target") ;;
  when (tgtAccessKey g =? "") (Fatalln "--access-key is not provided for target") ;;
  when (tgtSecretKey g =? "") (Fatalln "--secret-key is not provided for target") ;;
  when (tgtBucket g =? "") (Fatalln "--bucket not specified for target.") ;;
  when (srcEndpoint g =? "") (Fatalln "--src-endpoint is not provided") ;;
  when (srcAccessKey g =? "") (Fatalln "--src-access-key is not provided") ;;
  when (srcSecretKey g =? "") (Fatalln "--src-secret-key is not provided") ;;
  when (srcBucket g =? "") (Fatalln "--src-bucket not specified.") ;;
  when (dirPath g =? "")
       (Fatalln "path to working dir required, please set --data-dir flag") ;;
  ret g.

(** [initMinioClient], lines 149-193. *)
Definition initMinioClient (ctx : Context)
           (accessKey secretKey minioBucket urlStr : string) : orError Client :=
  match url_Parse urlStr with
  | Error err =>
      Error ("unable to parse input arg " ++ urlStr ++ ": " ++ err)%string
  | Value target =>
      if (accessKey =? "") || (secretKey =? "") || (minioBucket =? "") then
        Error ("one or more of AccessKey:" ++ accessKey ++ " SecretKey: " ++ secretKey
               ++ " Bucket:" ++ minioBucket
               ++ " are missing in MinIO configuration for: " ++ urlStr)%string
      else
        miniogo_New (Host target)
                    {| CredsAccessKey := accessKey;
                       CredsSecretKey := secretKey;
                       Secure := (Scheme target =? "https");
                       InsecureSkipVerify := flag_insecure ctx |}
  end.

(** The body of the scanner loop after the skip test, lines 222-233:
    the operands of the struct literal are evaluated from left to
    right. *)
Definition loopBody (o : string) : M unit :=
  let slc := Strings.SplitN o comma 4 in
  when ((length slc <? 3) || (4 <? length slc))%nat
       (logDMsg ("error processing line :" ++ o ++ " ")%string None) ;;
  s0 <- index slc 0 ;;
  s1 <- index slc 1 ;;
  s2 <- index slc 2 ;;
  s3 <- index slc 3 ;;
  let obj := {| bucket := TrimSpace s0;
                object := TrimSpace s1;
                versionID := TrimSpace s2;
                deleteMarker := (TrimSpace s3 =? "true") |} in
  queueUploadTask obj ;;
  logDMsg ("adding " ++ o ++ " to copy queue")%string None.

(** The scanner loop, lines 216-234, over the lines the scanner
    delivers. *)
Fixpoint scanLoop (lines : list string) (skip : Z) : M unit :=
  match lines with
  | [] => ret tt
  | o :: rest =>
      if (0 <? skip)%Z then scanLoop rest (skip - 1)%Z
      else loopBody o ;; scanLoop rest skip
  end.

(** The last message of a live run, line 246. *)
Definition copiedMsg (cs : Core.session) (latency : Z) : string :=
  let count := (Core.getCount cs - Core.getFailCount cs)%Z in
  ("Copied " ++ humanize_Comma (int64 count) ++ " / "
   ++ humanize_Comma (int64 (Core.getCount cs))
   ++ " objects with latency " ++ fmt_d latency ++ " secs")%string.

(** [copyAction], lines 195-249.  It returns Go's [error]; [None] is
    [nil].  The two clients go to the package-level [srcClient] and
    [tgtClient], which only the workers read; what the gateways answer
    to the workers is in the world. *)
Definition copyAction (cliCtx : Context) (w : World) : M (option error) :=
  g <- checkCopyArgsAndInit cliCtx ;;
  match initMinioClient cliCtx (srcAccessKey g) (srcSecretKey g) (srcBucket g)
                        (srcEndpoint g) with
  | Error err => ret (Some ("could not initialize src client " ++ err)%string)
  | Value srcClient =>
  match initMinioClient cliCtx (tgtAccessKey g) (tgtSecretKey g) (tgtBucket g)
                        (tgtEndpoint g) with
  | Error err => ret (Some ("could not initialize tgt client " ++ err)%string)
  | Value tgtClient =>
      setCopyState Core.newcopyState ;;
      cs <- getCopyState ;; setCopyState (Core.init cs) ;;
      let skip := flag_skip cliCtx in
      setDryRun (flag_fake cliCtx) ;;
      match os_Open w (path_Join (dirPath g) objListFile) with
      | Error err => Fatalln ("--input-file needs to be specified " ++ err)%string
      | Value file =>
          scanLoop (fileLines file) skip ;;
          match fileErr file with
          | Some err =>
              logDMsg ("error processing file :" ++ objListFile ++ " ")%string
                      (Some err) ;;
              ret (Some err)
          | None =>
              finish (gateway w) ;;
              dr <- getDryRun ;;
              (if dr then logMsg "copy dry run complete"
               else cs <- getCopyState ;;
                    logMsg (copiedMsg cs (elapsedSecs w))) ;;
              ret None
          end
      end
  end
  end.

End CopyMain.

(* ================================================================== *)
(** ** Vocabulary of the properties *)

(** The comma-separated fields of a manifest line. *)
Definition fields (line : string) : list string := Strings.Split line comma.

(** The nine flags [checkCopyArgsAndInit] requires are all given. *)
Definition flagsPresent (ctx : Context) : bool :=
  negb (flag_endpoint ctx =? "") && negb (flag_access_key ctx =? "")
  && negb (flag_secret_key ctx =? "") && negb (flag_bucket ctx =? "")
  && negb (flag_src_endpoint ctx =? "") && negb (flag_src_access_key ctx =? "")
  && negb (flag_src_secret_key ctx =? "") && negb (flag_src_bucket ctx =? "")
  && negb (flag_data_dir ctx =? "").

(** The same flags with another value of [--fake]. *)
Definition withFake (b : bool) (ctx : Context) : Context :=
  {| flag_debug := flag_debug ctx;
     flag_src_endpoint := flag_src_endpoint ctx;
     flag_src_access_key := flag_src_access_key ctx;
     flag_src_secret_key := flag_src_secret_key ctx;
     flag_src_bucket := flag_src_bucket ctx;
     flag_endpoint := flag_endpoint ctx;
     flag_access_key := flag_access_key ctx;
     flag_secret_key := flag_secret_key ctx;
     flag_bucket := flag_bucket ctx;
     flag_data_dir := flag_data_dir ctx;
     flag_versions := flag_versions ctx;
     flag_insecure := flag_insecure ctx;
     flag_skip := flag_skip ctx;
     flag_fake := b |}.

(** The two kinds of fatal configuration error. *)
Inductive configError := MissingFlag | UnreadableManifest.

Definition isError {A} (r : orError A) : bool :=
  match r with Error _ => true | Value _ => false end.

Section Vocabulary.

Context {lib : GoLib}.

(** The construction of the source client, and of the target client, as
    [copyAction] calls them. *)
Definition srcClientOf (ctx : Context) : orError Client :=
  initMinioClient ctx (flag_src_access_key ctx) (flag_src_secret_key ctx)
                  (flag_src_bucket ctx) (flag_src_endpoint ctx).

Definition tgtClientOf (ctx : Context) : orError Client :=
  initMinioClient ctx (flag_access_key ctx) (flag_secret_key ctx)
                  (flag_bucket ctx) (flag_endpoint ctx).

(** The manifest, as [copyAction] opens it. *)
Definition openManifest (ctx : Context) (w : World) : orError File :=
  os_Open w (path_Join (flag_data_dir ctx) objListFile).

(** The core starts: the flags are there and both clients are built. *)
Definition coreStarts (ctx : Context) : bool :=
  flagsPresent ctx && negb (isError (srcClientOf ctx))
  && negb (isError (tgtClientOf ctx)).

(** The fatal configuration error of a run, if it has one. *)
Definition configErrorOf (ctx : Context) (w : World) : option configError :=
  if negb (flagsPresent ctx) then Some MissingFlag
  else if coreStarts ctx && isError (openManifest ctx w) then Some UnreadableManifest
  else None.

(** A whole run of the command in a fresh process. *)
Definition run (ctx : Context) (w : World) : result (option error) * state :=
  copyAction ctx w initialState.

(** The line splits into the four pieces the struct literal indexes:
    it has at least three commas. *)
Definition fourPieces (line : string) : Prop :=
  (4 <= length (fields line))%nat.

(** The manifest reader of the specification, section 6: a line of three
    or four fields is a record, the fourth field sets the delete-marker
    flag when it is the text true; any other line is malformed. *)
Definition specRecord (line : string) : option objInfo :=
  match fields line with
  | [b; o; v] =>
      Some {| bucket := TrimSpace b; object := TrimSpace o;
              versionID := TrimSpace v; deleteMarker := false |}
  | [b; o; v; d] =>
      Some {| bucket := TrimSpace b; object := TrimSpace o;
              versionID := TrimSpace v; deleteMarker := (TrimSpace d =? "true") |}
  | _ => None
  end.



(** The record the loop body builds from a line of four fields or
    more: the fields after the third stay joined by their commas. *)
Definition recordOf (o : string) : objInfo :=
  {| bucket := TrimSpace (nth 0 (fields o) "");
     object := TrimSpace (nth 1 (fields o) "");
     versionID := TrimSpace (nth 2 (fields o) "");
     deleteMarker := (TrimSpace (Strings.Join (skipn 3 (fields o)) ",") =? "true") |}.

(** The debug line that follows an enqueue, line 233. *)
Definition addingLog (o : string) : output :=
  DebugLog ("adding " ++ o ++ " to copy queue")%string None.

(** The lines of the manifest, when it opens. *)
Definition manifestLines (ctx : Context) (w : World) : list string :=
  match openManifest ctx w with
  | Value file => fileLines file
  | Error _ => []
  end.

End Vocabulary.

(** The state after records have joined the queue and lines the console. *)
Definition enqueued (rs : list objInfo) (logs : list output) (s : state) : state :=
  {| dryRun := dryRun s;
     copyState := {| Core.created := Core.created (copyState s);
                     Core.started := Core.started (copyState s);
                     Core.queue := Core.queue (copyState s) ++ rs;
                     Core.drained := Core.drained (copyState s);
                     Core.led := Core.led (copyState s);
                     Core.calls := Core.calls (copyState s) |};
     console := console s ++ logs |}.

(** The state when the core has started and [dryRun] is set, after line
    209. *)
Definition coreStarted (fake : bool) (s : state) : state :=
  {| dryRun := fake;
     copyState := Core.init Core.newcopyState;
     console := console s |}.

(** The state with another value of the package-level [dryRun]. *)
Definition withDryRun (b : bool) (s : state) : state :=
  {| dryRun := b; copyState := copyState s; console := console s |}.

(** The state after a fatal message. *)
Definition fatal (msg : string) (s : state) : state :=
  {| dryRun := dryRun s; copyState := copyState s;
     console := console s ++ [FatalLog msg] |}.

Section Report.

Context {lib : GoLib}.

(** The last line of a run that has drained, lines 240-247. *)
Definition summaryLine (fake : bool) (w : World) (cs : Core.session) : output :=
  Log (if fake then "copy dry run complete" else copiedMsg cs (elapsedSecs w)).

(** The state at the end of a run whose loop ended in [s1]: the
    workers have drained the queue and the summary is written. *)
Definition reported (fake : bool) (w : World) (s1 : state) : state :=
  {| dryRun := fake;
     copyState := fst (Core.finish fake (gateway w) (copyState s1));
     console := (console s1 ++ snd (Core.finish fake (gateway w) (copyState s1)))
                ++ [summaryLine fake w
                      (fst (Core.finish fake (gateway w) (copyState s1)))] |}.

End Report.

(** A user-visible line of [logMsg]. *)
Definition isLog (o : output) : bool :=
  match o with Log _ => true | _ => false end.

(* ================================================================== *)
(** ** Vocabulary of the further properties *)

(** The line the loop body writes for a line it finds too short, line
    224. *)
Definition errorLog (o : string) : output :=
  DebugLog ("error processing line :" ++ o ++ " ")%string None.

(** What the loop body has written when it panics on a line of fewer
    than four fields: the report of line 224 when the fields are fewer
    than three, nothing when they are three. *)
Definition shortLog (o : string) : list output :=
  if (length (fields o) <? 3)%nat then [errorLog o] else [].

(** The number of fields of the first line that has fewer than four. *)
Fixpoint firstShort (lines : list string) : option nat :=
  match lines with
  | [] => None
  | o :: rest =>
      if (length (fields o) <? 4)%nat then Some (length (fields o))
      else firstShort rest
  end.

(** The nine required flags, each with the message of its test, in the
    order [checkCopyArgsAndInit] tests them, lines 112-146. *)
Definition requiredFlags (ctx : Context) : list (string * string) :=
  [ (flag_endpoint ctx, "--endpoint is not provided for target");
    (flag_access_key ctx, "--access-key is not provided for target");
    (flag_secret_key ctx, "--secret-key is not provided for target");
    (flag_bucket ctx, "--bucket not specified for target.");
    (flag_src_endpoint ctx, "--src-endpoint is not provided");
    (flag_src_access_key ctx, "--src-access-key is not provided");
    (flag_src_secret_key ctx, "--src-secret-key is not provided");
    (flag_src_bucket ctx, "--src-bucket not specified.");
    (flag_data_dir ctx, "path to working dir required, please set --data-dir flag") ].

(** The first required flag that is empty, with its message. *)
Definition firstMissing (ctx : Context) : option (string * string) :=
  find (fun f => fst f =? "") (requiredFlags ctx).

Section Outcome.

Context {lib : GoLib}.

(** How a run ends, as a table: the tests of [copyAction] in the order it
    makes them. *)
Definition outcomeOf (ctx : Context) (w : World) : result (option error) :=
  if negb (flagsPresent ctx) then Exit 1
  else
    match srcClientOf ctx with
    | Error e => Ok (Some ("could not initialize src client " ++ e)%string)
    | Value _ =>
        match tgtClientOf ctx with
        | Error e => Ok (Some ("could not initialize tgt client " ++ e)%string)
        | Value _ =>
            match openManifest ctx w with
            | Error _ => Exit 1
            | Value file =>
                match firstShort (skipn (Z.to_nat (flag_skip ctx)) (fileLines file)) with
                | Some n => Panicked (IndexOutOfRange n n)
                | None => Ok (fileErr file)
                end
            end
        end
    end.

(** [initMinioClient] without its test of the credentials and the
    bucket, lines 155-157. *)
Definition clientFor (insecure : bool) (accessKey secretKey urlStr : string)
  : orError Client :=
  match url_Parse urlStr with
  | Error err => Error ("unable to parse input arg " ++ urlStr ++ ": " ++ err)%string
  | Value target =>
      miniogo_New (Host target)
                  {| CredsAccessKey := accessKey;
                     CredsSecretKey := secretKey;
                     Secure := (Scheme target =? "https");
                     InsecureSkipVerify := insecure |}
  end.

End Outcome.

(* ================================================================== *)
(** ** An instance of the library, to run the definitions *)

Module Sample.

Definition digit (d : Z) : ascii := ascii_of_nat (48 + Z.to_nat d).

Fixpoint decimalAcc (fuel : nat) (n : Z) (acc : string) : string :=
  match fuel with
  | O => acc
  | S fuel' =>
      let acc' := String (digit (n mod 10)) acc in
      if (n / 10 =? 0)%Z then acc' else decimalAcc fuel' (n / 10) acc'
  end.

(** Decimal digits of an [int64]. *)
Definition decimal (n : Z) : string :=
  if (n <? 0)%Z then String "-" (decimalAcc 20 (- n) "") else decimalAcc 20 n "".

Definition pad3 (n : Z) : string :=
  String (digit (n / 100)) (String (digit (n / 10 mod 10)) (String (digit (n mod 10)) "")).

Fixpoint commaAcc (fuel : nat) (n : Z) : string :=
  match fuel with
  | O => decimal n
  | S fuel' =>
      if (n <=? 999)%Z then decimal n
      else (commaAcc fuel' (n / 1000) ++ "," ++ pad3 (n mod 1000))%string
  end.

(** Digits in groups of three, as [humanize.Comma] prints them. *)
Definition Comma (n : Z) : string :=
  if (n <? 0)%Z then String "-" (commaAcc 7 (- n)) else commaAcc 7 n.

Definition badURLByte (c : ascii) : bool :=
  (nat_of_ascii c <=? 32)%nat || (nat_of_ascii c =? 127)%nat.

Fixpoint anyByte (p : ascii -> bool) (s : string) : bool :=
  match s with
  | EmptyString => false
  | String c s' => p c || anyByte p s'
  end.

(** [url.Parse] on the shapes the command meets: [scheme://host] with an
    optional path, and the rejection of blanks and control bytes. *)
Definition Parse (s : string) : orError URL :=
  if anyByte badURLByte s then Error "invalid character in URL"
  else match Strings.cutAt ":" s with
       | Some (scheme, String "/" (String "/" rest)) =>
           Value {| Scheme := scheme;
                    Host := match Strings.cutAt "/" rest with
                            | Some (h, _) => h
                            | None => rest
                            end |}
       | _ => Value {| Scheme := ""; Host := "" |}
       end.

(** [miniogo.New]: an empty endpoint is refused. *)
Definition New (endpoint : string) (opts : Options) : orError Client :=
  if endpoint =? "" then Error "Endpoint does not follow ip address or domain name standards."
  else Value {| clientEndpoint := endpoint; clientOptions := opts |}.

Definition lib : GoLib :=
  {| TrimSpace := Strings.TrimSpaceASCII;
     url_Parse := Parse;
     miniogo_New := New;
     humanize_Comma := Comma;
     fmt_d := decimal;
     path_Join := fun dir file => (dir ++ "/" ++ file)%string;
     objListFile := "object_listing.txt" |}.

(** The flags of the example in the command's help text. *)
Definition ctx : Context :=
  {| flag_debug := false;
     flag_src_endpoint := "https://minio1";
     flag_src_access_key := "minio1";
     flag_src_secret_key := "minio123";
     flag_src_bucket := "srcbucket";
     flag_endpoint := "https://minio2";
     flag_access_key := "minio";
     flag_secret_key := "minio123";
     flag_bucket := "dstbucket";
     flag_data_dir := "/tmp/data";
     flag_versions := false;
     flag_insecure := false;
     flag_skip := 0;
     flag_fake := false |}.

Definition withSkip (n : Z) (c : Context) : Context :=
  {| flag_debug := flag_debug c;
     flag_src_endpoint := flag_src_endpoint c;
     flag_src_access_key := flag_src_access_key c;
     flag_src_secret_key := flag_src_secret_key c;
     flag_src_bucket := flag_src_bucket c;
     flag_endpoint := flag_endpoint c;
     flag_access_key := flag_access_key c;
     flag_secret_key := flag_secret_key c;
     flag_bucket := flag_bucket c;
     flag_data_dir := flag_data_dir c;
     flag_versions := flag_versions c;
     flag_insecure := flag_insecure c;
     flag_skip := n;
     flag_fake := flag_fake c |}.

Definition withSrcEndpoint (e : string) (c : Context) : Context :=
  {| flag_debug := flag_debug c;
     flag_src_endpoint := e;
     flag_src_access_key := flag_src_access_key c;
     flag_src_secret_key := flag_src_secret_key c;
     flag_src_bucket := flag_src_bucket c;
     flag_endpoint := flag_endpoint c;
     flag_access_key := flag_access_key c;
     flag_secret_key := flag_secret_key c;
     flag_bucket := flag_bucket c;
     flag_data_dir := flag_data_dir c;
     flag_versions := flag_versions c;
     flag_insecure := flag_insecure c;
     flag_skip := flag_skip c;
     flag_fake := flag_fake c |}.

Definition withBucket (b : string) (c : Context) : Context :=
  {| flag_debug := flag_debug c;
     flag_src_endpoint := flag_src_endpoint c;
     flag_src_access_key := flag_src_access_key c;
     flag_src_secret_key := flag_src_secret_key c;
     flag_src_bucket := flag_src_bucket c;
     flag_endpoint := flag_endpoint c;
     flag_access_key := flag_access_key c;
     flag_secret_key := flag_secret_key c;
     flag_bucket := b;
     flag_data_dir := flag_data_dir c;
     flag_versions := flag_versions c;
     flag_insecure := flag_insecure c;
     flag_skip := flag_skip c;
     flag_fake := flag_fake c |}.

(** Gateways on which every operation succeeds, and gateways on which
    the target refuses every delete. *)
Definition allOK : Gateway :=
  {| getOK := fun _ => true; putOK := fun _ => true; deleteOK := fun _ => true |}.

Definition deleteFails : Gateway :=
  {| getOK := fun _ => true; putOK := fun _ => true; deleteOK := fun _ => false |}.

(** A world whose manifest, at /tmp/data/object_listing.txt, is [f]. *)
Definition world (f : orError File) (gw : Gateway) : World :=
  {| os_Open := fun p => if p =? "/tmp/data/object_listing.txt" then f
                        else Error "no such file or directory";
     elapsedSecs := 3;
     gateway := gw |}.

Definition manifest (lines : list string) : orError File :=
  Value {| fileLines := lines; fileErr := None |}.

Definition unreadable : orError File := Error "permission denied".

Definition truncated (lines : list string) : orError File :=
  Value {| fileLines := lines; fileErr := Some "bufio.Scanner: token too long" |}.

End Sample.

(* ================================================================== *)
(** ** Splitting a line *)

Section SplitFacts.

Variable sep : ascii.

Lemma Split_not_nil (s : string) : Strings.Split s sep <> [].
Proof.
  destruct s as [|c s]; simpl; [discriminate|].
  destruct (Ascii.eqb c sep); [discriminate|].
  destruct (Strings.Split s sep); discriminate.
Qed.

Lemma cutAt_None (s : string) :
  Strings.cutAt sep s = None -> Strings.Split s sep = [s].
Proof.
  induction s as [|c s IH]; simpl; intros H; [reflexivity|].
  destruct (Ascii.eqb c sep); [discriminate|].
  destruct (Strings.cutAt sep s) as [[a b]|]; [discriminate|].
  rewrite IH; reflexivity.
Qed.

Lemma cutAt_Some (s a b : string) :
  Strings.cutAt sep s = Some (a, b) ->
  Strings.Split s sep = a :: Strings.Split b sep.
Proof.
  revert a; induction s as [|c s IH]; simpl; intros a H; [discriminate|].
  destruct (Ascii.eqb c sep).
  - injection H as <- <-; reflexivity.
  - destruct (Strings.cutAt sep s) as [[a' b']|]; [|discriminate].
    injection H as <- <-.
    rewrite (IH a' eq_refl); reflexivity.
Qed.

Lemma Join_cons (x : string) (rest : list string) (t : string) :
  rest <> [] ->
  Strings.Join (x :: rest) t = (x ++ t ++ Strings.Join rest t)%string.
Proof. destruct rest; [congruence | reflexivity]. Qed.

Lemma Join_cons_byte (c : ascii) (f : string) (fs : list string) (t : string) :
  Strings.Join (String c f :: fs) t = String c (Strings.Join (f :: fs) t).
Proof. destruct fs; reflexivity. Qed.

(** Joining the fields of a string with the separator gives the string
    back. *)
Lemma Join_Split (s : string) :
  Strings.Join (Strings.Split s sep) (String sep EmptyString) = s.
Proof.
  induction s as [|c s IH]; simpl; [reflexivity|].
  destruct (Ascii.eqb_spec c sep) as [->|Hne].
  - rewrite Join_cons by apply Split_not_nil.
    simpl; rewrite IH; reflexivity.
  - destruct (Strings.Split s sep) as [|f fs] eqn:E.
    + exfalso; exact (Split_not_nil s E).
    + rewrite Join_cons_byte, IH; reflexivity.
Qed.

(** [SplitN] with a positive count, by the fields: all of them when
    they are few enough, else the first [n] and the rest joined again. *)
Lemma SplitN_fields (n : nat) (s : string) :
  Strings.SplitN s sep (S n) =
    if (length (Strings.Split s sep) <=? S n)%nat then Strings.Split s sep
    else firstn n (Strings.Split s sep)
         ++ [Strings.Join (skipn n (Strings.Split s sep)) (String sep EmptyString)].
Proof.
  revert s; induction n as [|n IH]; intros s.
  - simpl Strings.SplitN. simpl firstn. simpl skipn.
    pose proof (Join_Split s) as J.
    destruct (Strings.Split s sep) as [|f [|g fs]] eqn:E.
    + exfalso; exact (Split_not_nil s E).
    + rewrite <- J; reflexivity.
    + rewrite <- J; reflexivity.
  - change (Strings.SplitN s sep (S (S n)))
      with (match Strings.cutAt sep s with
            | Some (a, b) => a :: Strings.SplitN b sep (S n)
            | None => [s]
            end).
    destruct (Strings.cutAt sep s) as [[a b]|] eqn:E.
    + rewrite (cutAt_Some _ _ _ E), IH.
      change (length (a :: Strings.Split b sep) <=? S (S n))%nat
        with (length (Strings.Split b sep) <=? S n)%nat.
      destruct (length (Strings.Split b sep) <=? S n)%nat; reflexivity.
    + rewrite (cutAt_None _ E); reflexivity.
Qed.

End SplitFacts.

(** The four pieces of a line with at least four fields. *)
Lemma SplitN_4_of_fields (o f0 f1 f2 f3 : string) (rest : list string) :
  fields o = f0 :: f1 :: f2 :: f3 :: rest ->
  Strings.SplitN o comma 4 = [f0; f1; f2; Strings.Join (f3 :: rest) ","].
Proof.
  unfold fields; intros E.
  rewrite SplitN_fields, E.
  destruct rest as [|f4 rest]; reflexivity.
Qed.

(** With fewer than four fields the pieces are the fields. *)
Lemma SplitN_4_short (o : string) :
  (length (fields o) <= 4)%nat -> Strings.SplitN o comma 4 = fields o.
Proof.
  unfold fields; intros L.
  rewrite SplitN_fields.
  destruct (Nat.leb_spec (length (Strings.Split o comma)) 4); [reflexivity | lia].
Qed.

(* ================================================================== *)
(** ** The loop body, by the number of fields *)

Lemma enqueued_nil (s : state) : enqueued [] [] s = s.
Proof.
  destruct s as [d [c st q dr l cl] out]; unfold enqueued; simpl.
  rewrite !app_nil_r; reflexivity.
Qed.

Lemma enqueued_enqueued (r1 r2 : list objInfo) (l1 l2 : list output) (s : state) :
  enqueued r2 l2 (enqueued r1 l1 s) = enqueued (r1 ++ r2) (l1 ++ l2) s.
Proof. unfold enqueued; simpl; rewrite !app_assoc; reflexivity. Qed.

Section LoopBody.

Context {lib : GoLib}.

(** Four fields or more: the record is enqueued, and the only line
    written is the one that follows the enqueue. *)
Lemma loopBody_four (o : string) (s : state) :
  fourPieces o ->
  loopBody o s = (Ok tt, enqueued [recordOf o] [addingLog o] s).
Proof.
  unfold fourPieces; intros L.
  destruct (fields o) as [|f0 [|f1 [|f2 [|f3 rest]]]] eqn:E; simpl in L; try lia.
  unfold loopBody, recordOf.
  rewrite (SplitN_4_of_fields _ _ _ _ _ _ E), E.
  reflexivity.
Qed.

(** Exactly three fields: the length test lets the line pass and the
    fourth index panics, before anything is enqueued or written. *)
Lemma loopBody_three (o : string) (s : state) :
  length (fields o) = 3%nat ->
  loopBody o s = (Panicked (IndexOutOfRange 3 3), s).
Proof.
  intros L. unfold loopBody.
  rewrite SplitN_4_short by lia.
  destruct (fields o) as [|f0 [|f1 [|f2 [|f3 rest]]]]; try discriminate L.
  reflexivity.
Qed.

(** Fewer than three fields: the line is reported, and the first index
    past the end panics. *)
Lemma loopBody_short (o : string) (s : state) :
  (length (fields o) < 3)%nat ->
  loopBody o s =
    (Panicked (IndexOutOfRange (length (fields o)) (length (fields o))),
     enqueued [] [DebugLog ("error processing line :" ++ o ++ " ")%string None] s).
Proof.
  intros L. unfold loopBody.
  rewrite SplitN_4_short by lia.
  pose proof (Split_not_nil comma o) as NE. fold (fields o) in NE.
  destruct (fields o) as [|f0 [|f1 [|f2 rest]]]; simpl in L; try lia;
    [congruence | |];
    unfold enqueued; destruct s as [d [c st q dr l cl] out]; simpl;
    unfold bind, when, logDMsg, emit, index; simpl; rewrite app_nil_r; reflexivity.
Qed.

(** The loop with nothing left to skip, on lines of four fields or
    more. *)
Lemma scanLoop_four (lines : list string) (s : state) :
  Forall fourPieces lines ->
  scanLoop lines 0 s = (Ok tt, enqueued (map recordOf lines) (map addingLog lines) s).
Proof.
  intros F; revert s; induction F as [|o rest Ho _ IH]; intros s.
  - simpl; unfold ret; rewrite enqueued_nil; reflexivity.
  - simpl scanLoop. unfold bind.
    rewrite (loopBody_four o s Ho), IH, enqueued_enqueued; reflexivity.
Qed.

(** An offset that is not positive skips nothing. *)
Lemma scanLoop_nonpos (lines : list string) (skip : Z) (s : state) :
  (skip <= 0)%Z -> scanLoop lines skip s = scanLoop lines 0 s.
Proof.
  intros N; revert s; induction lines as [|o rest IH]; intros s; [reflexivity|].
  simpl scanLoop.
  destruct (Z.ltb_spec 0 skip); [lia|].
  unfold bind. destruct (loopBody o s) as [[[]|c|p] s1]; auto.
Qed.

(** The skipped lines are dropped unread. *)
Lemma scanLoop_skipn (lines : list string) (skip : Z) (s : state) :
  scanLoop lines skip s = scanLoop (skipn (Z.to_nat skip) lines) 0 s.
Proof.
  revert skip; induction lines as [|o rest IH]; intros skip.
  - rewrite skipn_nil; reflexivity.
  - destruct (Z.ltb_spec 0 skip) as [P|P].
    + simpl scanLoop at 1.
      destruct (Z.ltb_spec 0 skip); [|lia].
      rewrite IH.
      replace (Z.to_nat skip) with (S (Z.to_nat (skip - 1))) by lia.
      reflexivity.
    + replace (Z.to_nat skip) with O by lia.
      apply scanLoop_nonpos; exact P.
Qed.

End LoopBody.

(* ================================================================== *)
(** ** What the loop leaves alone *)

(** The three ways of the loop body on a line [o]: fewer than three
    fields, three, four or more.  Each case is rewritten with its
    equation. *)
Ltac by_field_count o :=
  let L := fresh "L" in
  destruct (Nat.lt_ge_cases (length (fields o)) 3) as [L|L];
  [ rewrite ?loopBody_short by exact L
  | let L3 := fresh "L3" in
    destruct (Nat.eq_dec (length (fields o)) 3) as [L3|L3];
    [ rewrite ?loopBody_three by exact L3
    | assert (fourPieces o) by (unfold fourPieces; lia);
      rewrite ?loopBody_four by assumption ] ].

Section LoopFrame.

Context {lib : GoLib}.

(** The loop body leaves [dryRun] alone. *)
Lemma loopBody_dryRun (o : string) (s : state) :
  dryRun (snd (loopBody o s)) = dryRun s.
Proof. by_field_count o; reflexivity. Qed.

(** The loop leaves [dryRun] alone, however it ends. *)
Lemma scanLoop_dryRun (lines : list string) (skip : Z) (s : state) :
  dryRun (snd (scanLoop lines skip s)) = dryRun s.
Proof.
  revert skip s; induction lines as [|o rest IH]; intros skip s; [reflexivity|].
  simpl scanLoop.
  destruct (0 <? skip)%Z; [apply IH|].
  unfold bind. pose proof (loopBody_dryRun o s) as D.
  destruct (loopBody o s) as [[[]|c|p] s1]; simpl in *; auto.
  rewrite IH; exact D.
Qed.

(** The loop body touches the queue and the console only. *)
Lemma loopBody_frame (o : string) (s : state) :
  exists (rs : list objInfo) (logs : list output),
    snd (loopBody o s) = enqueued rs logs s.
Proof.
  by_field_count o.
  - eexists _, _; reflexivity.
  - exists [], []. simpl; rewrite enqueued_nil; reflexivity.
  - eexists _, _; reflexivity.
Qed.

(** So does the loop, however it ends. *)
Lemma scanLoop_frame (lines : list string) (skip : Z) (s : state) :
  exists (rs : list objInfo) (logs : list output),
    snd (scanLoop lines skip s) = enqueued rs logs s.
Proof.
  revert skip s; induction lines as [|o rest IH]; intros skip s.
  - exists [], []; simpl; rewrite enqueued_nil; reflexivity.
  - simpl scanLoop. destruct (0 <? skip)%Z; [apply IH|].
    unfold bind.
    destruct (loopBody_frame o s) as (r1 & l1 & E1).
    destruct (loopBody o s) as [[[]|c|p] s1]; simpl in E1; subst s1;
      try (eexists _, _; reflexivity).
    destruct (IH skip (enqueued r1 l1 s)) as (r2 & l2 & E2).
    rewrite E2, enqueued_enqueued; eexists _, _; reflexivity.
Qed.

(** The loop body does not read [dryRun]. *)
Lemma loopBody_withDryRun (b : bool) (o : string) (s : state) :
  loopBody o (withDryRun b s)
  = (fst (loopBody o s), withDryRun b (snd (loopBody o s))).
Proof. by_field_count o; reflexivity. Qed.

(** Nor does the loop. *)
Lemma scanLoop_withDryRun (b : bool) (lines : list string) (skip : Z) (s : state) :
  scanLoop lines skip (withDryRun b s)
  = (fst (scanLoop lines skip s), withDryRun b (snd (scanLoop lines skip s))).
Proof.
  revert skip s; induction lines as [|o rest IH]; intros skip s; [reflexivity|].
  simpl scanLoop. destruct (0 <? skip)%Z; [apply IH|].
  unfold bind. rewrite loopBody_withDryRun.
  destruct (loopBody o s) as [[[]|c|p] s1]; simpl; try reflexivity.
  apply IH.
Qed.

End LoopFrame.

(* ================================================================== *)
(** ** The start-up sequence of [copyAction] *)

Section StartUp.

Context {lib : GoLib}.

Lemma flagsPresent_true (ctx : Context) :
  flagsPresent ctx = true ->
  (flag_endpoint ctx =? "") = false /\ (flag_access_key ctx =? "") = false
  /\ (flag_secret_key ctx =? "") = false /\ (flag_bucket ctx =? "") = false
  /\ (flag_src_endpoint ctx =? "") = false /\ (flag_src_access_key ctx =? "") = false
  /\ (flag_src_secret_key ctx =? "") = false /\ (flag_src_bucket ctx =? "") = false
  /\ (flag_data_dir ctx =? "") = false.
Proof.
  unfold flagsPresent; intros H.
  repeat (apply andb_prop in H; destruct H as [H ?]).
  repeat match goal with
         | [ K : negb _ = true |- _ ] => apply negb_true_iff in K
         end.
  repeat split; assumption.
Qed.

(** With the nine flags given, the check returns and writes nothing. *)
Lemma checkCopyArgsAndInit_present (ctx : Context) (s : state) :
  flagsPresent ctx = true ->
  checkCopyArgsAndInit ctx s = (Ok (readFlags ctx), s).
Proof.
  intros H; apply flagsPresent_true in H.
  destruct H as (H1 & H2 & H3 & H4 & H5 & H6 & H7 & H8 & H9).
  unfold checkCopyArgsAndInit, bind, when; simpl.
  rewrite H1, H2, H3, H4, H5, H6, H7, H8, H9; reflexivity.
Qed.

(** With one of them missing, the check exits on its message. *)
Lemma checkCopyArgsAndInit_missing (ctx : Context) (s : state) :
  flagsPresent ctx = false ->
  exists msg, checkCopyArgsAndInit ctx s = (Exit 1, fatal msg s).
Proof.
  intros H.
  unfold checkCopyArgsAndInit, bind, when, flagsPresent in *; simpl.
  repeat match goal with
         | [ |- context [ if (?x =? "") then _ else _ ] ] =>
             destruct (x =? "") eqn:?; [eexists; reflexivity|]
         end.
  simpl in H; discriminate H.
Qed.

Lemma copyAction_missing (ctx : Context) (w : World) (s : state) :
  flagsPresent ctx = false ->
  exists msg, copyAction ctx w s = (Exit 1, fatal msg s).
Proof.
  intros H.
  destruct (checkCopyArgsAndInit_missing ctx s H) as [msg E].
  exists msg. unfold copyAction, bind at 1. rewrite E; reflexivity.
Qed.

Lemma copyAction_src_error (ctx : Context) (w : World) (s : state) (e : error) :
  flagsPresent ctx = true ->
  srcClientOf ctx = Error e ->
  copyAction ctx w s = (Ok (Some ("could not initialize src client " ++ e)%string), s).
Proof.
  intros H E.
  unfold copyAction, bind at 1.
  rewrite (checkCopyArgsAndInit_present ctx s H).
  unfold srcClientOf in E; simpl; rewrite E; reflexivity.
Qed.

Lemma copyAction_tgt_error (ctx : Context) (w : World) (s : state) (e : error) :
  flagsPresent ctx = true ->
  isError (srcClientOf ctx) = false ->
  tgtClientOf ctx = Error e ->
  copyAction ctx w s = (Ok (Some ("could not initialize tgt client " ++ e)%string), s).
Proof.
  intros H Es Et.
  unfold copyAction, bind at 1.
  rewrite (checkCopyArgsAndInit_present ctx s H).
  unfold srcClientOf, tgtClientOf in *; simpl.
  destruct (initMinioClient ctx (flag_src_access_key ctx) _ _ _); [|discriminate Es].
  rewrite Et; reflexivity.
Qed.

(** When the core starts, the run goes on from the manifest, in the
    state [coreStarted]. *)
Lemma copyAction_started (ctx : Context) (w : World) (s : state) :
  coreStarts ctx = true ->
  copyAction ctx w s =
    match openManifest ctx w with
    | Error err => Fatalln ("--input-file needs to be specified " ++ err)%string
    | Value file =>
        scanLoop (fileLines file) (flag_skip ctx) ;;
        match fileErr file with
        | Some err =>
            logDMsg ("error processing file :" ++ objListFile ++ " ")%string
                    (Some err) ;;
            ret (Some err)
        | None =>
            finish (gateway w) ;;
            dr <- getDryRun ;;
            (if dr then logMsg "copy dry run complete"
             else cs <- getCopyState ;;
                  logMsg (copiedMsg cs (elapsedSecs w))) ;;
            ret None
        end
    end (coreStarted (flag_fake ctx) s).
Proof.
  unfold coreStarts; intros H.
  apply andb_prop in H; destruct H as [H Et].
  apply andb_prop in H; destruct H as [H Es].
  apply negb_true_iff in Es, Et.
  unfold copyAction, bind at 1.
  rewrite (checkCopyArgsAndInit_present ctx s H).
  unfold srcClientOf, tgtClientOf, openManifest in *; simpl.
  destruct (initMinioClient ctx (flag_src_access_key ctx) _ _ _); [|discriminate Es].
  destruct (initMinioClient ctx (flag_access_key ctx) _ _ _); [|discriminate Et].
  reflexivity.
Qed.

End StartUp.

(* ================================================================== *)
(** ** The end of a run *)

Section Completion.

Context {lib : GoLib}.

(** The run after a loop that came to its end without a scanner error:
    drain, then the summary. *)
Lemma copyAction_completes (ctx : Context) (w : World) (s s1 : state) (file : File) :
  coreStarts ctx = true ->
  openManifest ctx w = Value file ->
  fileErr file = None ->
  scanLoop (fileLines file) (flag_skip ctx) (coreStarted (flag_fake ctx) s) = (Ok tt, s1) ->
  copyAction ctx w s = (Ok None, reported (flag_fake ctx) w s1).
Proof.
  intros C O F L.
  pose proof (scanLoop_dryRun (fileLines file) (flag_skip ctx)
                              (coreStarted (flag_fake ctx) s)) as D.
  rewrite L in D; simpl in D.
  rewrite (copyAction_started ctx w s C), O, F.
  unfold bind at 1; rewrite L.
  destruct s1 as [d cs1 out]; simpl in D; subst d.
  unfold reported, summaryLine, finish, bind, getCopyState, getDryRun,
         setCopyState, emit, logMsg, ret; simpl.
  destruct (Core.finish (flag_fake ctx) (gateway w) cs1) as [cs' o]; simpl.
  destruct (flag_fake ctx); reflexivity.
Qed.

(** The run after a loop that the scanner ended with an error: the
    error is returned; there is no drain and no summary. *)
Lemma copyAction_scan_error (ctx : Context) (w : World) (s s1 : state) (file : File)
      (e : error) :
  coreStarts ctx = true ->
  openManifest ctx w = Value file ->
  fileErr file = Some e ->
  scanLoop (fileLines file) (flag_skip ctx) (coreStarted (flag_fake ctx) s) = (Ok tt, s1) ->
  copyAction ctx w s =
    (Ok (Some e),
     enqueued [] [DebugLog ("error processing file :" ++ objListFile ++ " ")%string
                           (Some e)] s1).
Proof.
  intros C O F L.
  rewrite (copyAction_started ctx w s C), O, F.
  unfold bind at 1; rewrite L.
  unfold enqueued, bind, logDMsg, emit, ret; simpl.
  destruct s1 as [d [c st q dr l cl] out]; simpl; rewrite app_nil_r; reflexivity.
Qed.

(** With the flags given and a client that cannot be built, the run
    returns an error from the untouched state. *)
Lemma copyAction_client_error (ctx : Context) (w : World) (s : state) :
  flagsPresent ctx = true ->
  coreStarts ctx = false ->
  exists (which e : string),
    (which = "src" \/ which = "tgt")
    /\ copyAction ctx w s =
         (Ok (Some ("could not initialize " ++ which ++ " client " ++ e)%string), s).
Proof.
  intros H C. unfold coreStarts in C. rewrite H in C; simpl in C.
  destruct (srcClientOf ctx) as [c|e] eqn:Es.
  - destruct (tgtClientOf ctx) as [c'|e] eqn:Et; [discriminate C|].
    exists "tgt", e; split; [right; reflexivity|].
    apply copyAction_tgt_error; [exact H | rewrite Es; reflexivity | exact Et].
  - exists "src", e; split; [left; reflexivity|].
    apply copyAction_src_error; assumption.
Qed.

(** A run that returns [nil] has gone through drain and the summary. *)
Lemma copyAction_nil_inv (ctx : Context) (w : World) (s s' : state) :
  copyAction ctx w s = (Ok None, s') ->
  exists (file : File) (s1 : state),
    coreStarts ctx = true
    /\ openManifest ctx w = Value file
    /\ fileErr file = None
    /\ scanLoop (fileLines file) (flag_skip ctx) (coreStarted (flag_fake ctx) s)
       = (Ok tt, s1)
    /\ s' = reported (flag_fake ctx) w s1.
Proof.
  intros R.
  destruct (flagsPresent ctx) eqn:H.
  2:{ destruct (copyAction_missing ctx w s H) as [msg E]; congruence. }
  destruct (coreStarts ctx) eqn:C.
  2:{ destruct (copyAction_client_error ctx w s H C) as (wh & e & _ & E); congruence. }
  destruct (openManifest ctx w) as [file|e] eqn:O.
  2:{ rewrite (copyAction_started ctx w s C), O in R; discriminate R. }
  destruct (scanLoop (fileLines file) (flag_skip ctx) (coreStarted (flag_fake ctx) s))
    as [[[]|c|p] s1] eqn:L.
  - destruct (fileErr file) as [e|] eqn:F.
    + rewrite (copyAction_scan_error ctx w s s1 file e C O F L) in R; discriminate R.
    + rewrite (copyAction_completes ctx w s s1 file C O F L) in R.
      exists file, s1. injection R as <-. auto.
  - rewrite (copyAction_started ctx w s C), O in R.
    unfold bind at 1 in R; rewrite L in R; discriminate R.
  - rewrite (copyAction_started ctx w s C), O in R.
    unfold bind at 1 in R; rewrite L in R; discriminate R.
Qed.

End Completion.

(* ================================================================== *)
(** ** A loop that stops, and the flag [--fake] *)

Section LoopStops.

Context {lib : GoLib}.

(** A loop that exits or panics ends the run there. *)
Lemma copyAction_loop_stops (ctx : Context) (w : World) (s s1 : state) (file : File)
      (r : result unit) :
  coreStarts ctx = true ->
  openManifest ctx w = Value file ->
  scanLoop (fileLines file) (flag_skip ctx) (coreStarted (flag_fake ctx) s) = (r, s1) ->
  r <> Ok tt ->
  copyAction ctx w s =
    (match r with
     | Ok _ => Ok None
     | Exit c => Exit c
     | Panicked p => Panicked p
     end, s1).
Proof.
  intros C O L N.
  rewrite (copyAction_started ctx w s C), O.
  unfold bind at 1; rewrite L.
  destruct r as [[]|c|p]; [congruence | reflexivity | reflexivity].
Qed.

(** The flag [--fake] is read once, for [dryRun]. *)
Lemma flagsPresent_withFake (b : bool) (ctx : Context) :
  flagsPresent (withFake b ctx) = flagsPresent ctx.
Proof. reflexivity. Qed.

Lemma srcClientOf_withFake (b : bool) (ctx : Context) :
  srcClientOf (withFake b ctx) = srcClientOf ctx.
Proof. reflexivity. Qed.

Lemma tgtClientOf_withFake (b : bool) (ctx : Context) :
  tgtClientOf (withFake b ctx) = tgtClientOf ctx.
Proof. reflexivity. Qed.

Lemma coreStarts_withFake (b : bool) (ctx : Context) :
  coreStarts (withFake b ctx) = coreStarts ctx.
Proof. reflexivity. Qed.

Lemma openManifest_withFake (b : bool) (ctx : Context) (w : World) :
  openManifest (withFake b ctx) w = openManifest ctx w.
Proof. reflexivity. Qed.

End LoopStops.

(* ================================================================== *)
(** ** The workers' count *)

Section Workers.

Variable gw : Gateway.

(** One record, one more processed, whatever the mode and the outcome;
    at most one more failed. *)
Lemma worker_counts (dr : bool) (o : objInfo) (l : Core.ledger) :
  let l' := fst (fst (Core.worker dr gw o l)) in
  Core.processed l' = (Core.processed l + 1)%Z
  /\ (Core.failed l <= Core.failed l' <= Core.failed l + 1)%Z.
Proof.
  unfold Core.worker. destruct dr; simpl; [lia|].
  destruct (Core.replicate gw o) as [[|] cs]; simpl; lia.
Qed.

Lemma workAll_counts (dr : bool) (tasks : list objInfo) (l : Core.ledger) :
  let l' := fst (fst (Core.workAll dr gw tasks l)) in
  Core.processed l' = (Core.processed l + Z.of_nat (length tasks))%Z
  /\ (Core.failed l <= Core.failed l'
      <= Core.failed l + Z.of_nat (length tasks))%Z.
Proof.
  revert l; induction tasks as [|o rest IH]; intros l.
  - simpl; lia.
  - pose proof (worker_counts dr o l) as W.
    simpl Core.workAll.
    destruct (Core.worker dr gw o l) as [[l1 c1] o1]; simpl in W.
    pose proof (IH l1) as R.
    destruct (Core.workAll dr gw rest l1) as [[l2 c2] o2]; simpl in R |- *.
    lia.
Qed.

(** The session when [finish] returns. *)
Lemma finish_session (dr : bool) (cs : Core.session) :
  let cs' := fst (Core.finish dr gw cs) in
  Core.created cs' = Core.created cs
  /\ Core.started cs' = Core.started cs
  /\ Core.queue cs' = []
  /\ Core.drained cs' = true
  /\ Core.led cs' = fst (fst (Core.workAll dr gw (Core.queue cs) (Core.led cs)))
  /\ Core.calls cs'
     = Core.calls cs ++ snd (fst (Core.workAll dr gw (Core.queue cs) (Core.led cs))).
Proof.
  unfold Core.finish.
  destruct (Core.workAll dr gw (Core.queue cs) (Core.led cs)) as [[l c] o]; simpl.
  repeat split; reflexivity.
Qed.

(** A dry run calls no gateway. *)
Lemma workAll_dry_calls (tasks : list objInfo) (l : Core.ledger) :
  snd (fst (Core.workAll true gw tasks l)) = [].
Proof.
  revert l; induction tasks as [|o rest IH]; intros l; [reflexivity|].
  pose proof (IH (Core.incProcessed l)) as R.
  simpl Core.workAll.
  change (Core.worker true gw o l)
    with (Core.incProcessed l, @nil gwcall,
          [if deleteMarker o then WouldDelete o else WouldCopy o]).
  cbv iota beta.
  destruct (Core.workAll true gw rest (Core.incProcessed l)) as [[l2 c2] o2].
  simpl in *; exact R.
Qed.

End Workers.

(* ================================================================== *)
(** ** The ledger under interleaved workers *)

Section Pool.

Import Core.

Lemma failingCount_nonneg (l : list phase) : (0 <= failingCount l)%Z.
Proof. unfold failingCount; lia. Qed.

Lemma failingCount_repeat (n : nat) : failingCount (repeat Idle n) = 0%Z.
Proof. unfold failingCount; induction n; simpl; auto. Qed.

Lemma failingCount_cons (ph : phase) (l : list phase) :
  failingCount (ph :: l)
  = ((if isFailing ph then 1 else 0) + failingCount l)%Z.
Proof. unfold failingCount; cbn [filter]; destruct (isFailing ph); cbn [length]; lia. Qed.

Lemma failingCount_begin (i : nat) (l : list phase) :
  nth_error l i = Some Idle ->
  failingCount (setPhase i Failing l) = (failingCount l + 1)%Z.
Proof.
  revert i; induction l as [|h t IH]; intros [|i] H; simpl in H; try discriminate.
  - injection H as ->. simpl setPhase. rewrite !failingCount_cons; cbn [isFailing]; lia.
  - simpl setPhase. rewrite !failingCount_cons, (IH i H); lia.
Qed.

Lemma failingCount_end (i : nat) (l : list phase) :
  nth_error l i = Some Failing ->
  failingCount (setPhase i Idle l) = (failingCount l - 1)%Z.
Proof.
  revert i; induction l as [|h t IH]; intros [|i] H; simpl in H; try discriminate.
  - injection H as ->. simpl setPhase. rewrite !failingCount_cons; cbn [isFailing]; lia.
  - simpl setPhase. rewrite !failingCount_cons, (IH i H); lia.
Qed.

Lemma failingCount_quiescent (l : list phase) :
  Forall (fun ph => ph = Idle) l -> failingCount l = 0%Z.
Proof.
  induction 1 as [|h t -> _ IH]; [reflexivity|].
  rewrite failingCount_cons, IH; reflexivity.
Qed.

(** The accounting that every step keeps. *)
Lemma reachable_accounts (workers : nat) (p : pool) :
  reachable workers p ->
  processed (poolLedger p)
  = (completedOk p + completedFailed p + failingCount (phases p))%Z
  /\ failed (poolLedger p) = completedFailed p
  /\ (0 <= completedOk p)%Z /\ (0 <= completedFailed p)%Z.
Proof.
  induction 1 as [|p q _ (P & F & A & B) St].
  - simpl; rewrite failingCount_repeat; lia.
  - destruct St as [p i Hi|p i Hi|p i Hi]; simpl.
    + lia.
    + rewrite (failingCount_begin i _ Hi); lia.
    + rewrite (failingCount_end i _ Hi); lia.
Qed.

(** One handled record is one or two steps of an idle worker, and
    leaves the worker idle. *)
Lemma setPhase_back (i : nat) (l : list phase) :
  nth_error l i = Some Idle ->
  nth_error (setPhase i Failing l) i = Some Failing
  /\ setPhase i Idle (setPhase i Failing l) = l.
Proof.
  revert i; induction l as [|h t IH]; intros [|i] H; simpl in H; try discriminate.
  - injection H as ->; split; reflexivity.
  - destruct (IH i H) as [A B]; simpl; rewrite B; split; [exact A | reflexivity].
Qed.

Lemma worker_steps (dr : bool) (gw : Gateway) (o : objInfo) (p : pool) (i : nat) :
  nth_error (phases p) i = Some Idle ->
  exists q : pool,
    (poolStep p q \/ exists m, poolStep p m /\ poolStep m q)
    /\ poolLedger q = fst (fst (worker dr gw o (poolLedger p)))
    /\ phases q = phases p.
Proof.
  intros Hi. unfold worker.
  destruct dr; [|destruct (replicate gw o) as [[|] cs]]; simpl.
  1,2: eexists; split; [left; exact (StepSucceeded p i Hi) | split; reflexivity].
  destruct (setPhase_back i _ Hi) as [A B].
  eexists; split;
    [right; eexists; split;
     [exact (StepFailedCount p i Hi) | refine (StepFailedMark _ i _); exact A] |].
  simpl; split; [reflexivity | exact B].
Qed.

(** The drain over a whole queue is a run of the pool: its ledger is the
    ledger of a reachable state in which the workers are as before. *)
Lemma workAll_reachable (dr : bool) (gw : Gateway) (tasks : list objInfo)
      (workers : nat) (p : pool) :
  reachable workers p ->
  nth_error (phases p) 0 = Some Idle ->
  exists q : pool,
    reachable workers q
    /\ phases q = phases p
    /\ poolLedger q = fst (fst (workAll dr gw tasks (poolLedger p))).
Proof.
  revert p; induction tasks as [|o rest IH]; intros p R I.
  - exists p; repeat split; assumption.
  - destruct (worker_steps dr gw o p 0 I) as (m & St & Lm & Pm).
    assert (Rm : reachable workers m).
    { destruct St as [St|(m' & S1 & S2)].
      - exact (ReachStep workers p m R St).
      - exact (ReachStep workers m' m (ReachStep workers p m' R S1) S2). }
    destruct (IH m Rm) as (q & Rq & Pq & Lq); [rewrite Pm; exact I|].
    exists q. split; [exact Rq | split; [congruence|]].
    rewrite Lq, Lm. simpl workAll.
    destruct (worker dr gw o (poolLedger p)) as [[l1 c1] o1]; simpl.
    destruct (workAll dr gw rest l1) as [[l2 c2] o2]; reflexivity.
Qed.

End Pool.

(* ================================================================== *)
(** ** The manifest reader *)

(** A line of exactly four fields: the record of the specification. *)
Lemma loopBody_exactly_four {lib : GoLib} (o b k v d : string) (s : state) :
  fields o = [b; k; v; d] ->
  specRecord o = Some (recordOf o)
  /\ loopBody o s =
       (Ok tt,
        enqueued [{| bucket := TrimSpace b; object := TrimSpace k;
                     versionID := TrimSpace v;
                     deleteMarker := (TrimSpace d =? "true") |}]
                 [addingLog o] s).
Proof.
  intros E. split.
  - unfold specRecord, recordOf; rewrite E; reflexivity.
  - rewrite loopBody_four by (unfold fourPieces; rewrite E; simpl; lia).
    unfold recordOf; rewrite E; reflexivity.
Qed.

(** C1 (the code departs from the claim).  A manifest line of exactly
    three fields, b1,k1,v1: by the line schema it is the record (b1, k1,
    v1) with the delete-marker flag false.  The loop body lets it pass the
    length test and then evaluates [slc\[3\]] on a slice of length three:
    the runtime panics with index out of range \[3\] with length 3.
    Nothing is enqueued, and a run over a manifest with this line ends in
    the panic. *)
Theorem C1_three_fields_panic :
  @specRecord Sample.lib "b1,k1,v1"
  = Some {| bucket := "b1"; object := "k1"; versionID := "v1"; deleteMarker := false |}
  /\ @loopBody Sample.lib "b1,k1,v1" initialState
     = (Panicked (IndexOutOfRange 3 3), initialState)
  /\ fst (@run Sample.lib Sample.ctx
               (Sample.world (Sample.manifest ["b1,k1,v1"]) Sample.allOK))
     = Panicked (IndexOutOfRange 3 3).
Proof. repeat split; vm_compute; reflexivity. Qed.

(** C2 (the code departs from the claim).  Two malformed lines.  The line
    bucketOnly has one field: the loop body reports it and, with no
    [continue] after the report, goes on to [slc\[1\]] and panics, which
    ends the run.  The line a,b,c,d,e has five fields: [SplitN] with the
    count 4 returns four pieces, the test [len(slc) > 4] is never true,
    and the line is enqueued as the record (a, b, c, false) and counted
    as processed. *)
Theorem C2_malformed_lines_not_skipped :
  @specRecord Sample.lib "bucketOnly" = None
  /\ @loopBody Sample.lib "bucketOnly" initialState
     = (Panicked (IndexOutOfRange 1 1),
        enqueued [] [DebugLog "error processing line :bucketOnly " None] initialState)
  /\ fst (@run Sample.lib Sample.ctx
               (Sample.world (Sample.manifest ["bucketOnly"]) Sample.allOK))
     = Panicked (IndexOutOfRange 1 1)
  /\ @specRecord Sample.lib "a,b,c,d,e" = None
  /\ @loopBody Sample.lib "a,b,c,d,e" initialState
     = (Ok tt,
        enqueued [{| bucket := "a"; object := "b"; versionID := "c";
                     deleteMarker := false |}]
                 [DebugLog "adding a,b,c,d,e to copy queue" None] initialState)
  /\ Core.getCount
       (copyState (snd (@run Sample.lib Sample.ctx
                             (Sample.world (Sample.manifest ["a,b,c,d,e"]) Sample.allOK))))
     = 1%Z.
Proof. repeat split; vm_compute; reflexivity. Qed.

(** C10.  A manifest line of more than four comma-separated fields that
    the loop body reaches is not reported as malformed: the only line
    written is the one that follows the enqueue.  It is enqueued as the
    record whose bucket, object and versionID are the trimmed first three
    fields and whose delete-marker flag compares the trimmed remainder,
    the fields from the fourth on joined by their commas, with the text
    true. *)
Theorem C10_more_than_four_fields_enqueued :
  forall (lib : GoLib) (o : string) (s : state),
    (4 < length (fields o))%nat ->
    loopBody o s =
      (Ok tt,
       {| dryRun := dryRun s;
          copyState :=
            Core.queueUploadTask
              {| bucket := TrimSpace (nth 0 (fields o) "");
                 object := TrimSpace (nth 1 (fields o) "");
                 versionID := TrimSpace (nth 2 (fields o) "");
                 deleteMarker :=
                   (TrimSpace (Strings.Join (skipn 3 (fields o)) ",") =? "true") |}
              (copyState s);
          console := console s
                     ++ [DebugLog ("adding " ++ o ++ " to copy queue")%string None] |}).
Proof.
  intros lib o s L.
  rewrite loopBody_four by (unfold fourPieces; lia).
  reflexivity.
Qed.

Lemma C10_more_than_four_fields_enqueued_witness :
  (4 < length (fields "b1,k2,v2,true,x"))%nat
  /\ @loopBody Sample.lib "b1,k2,v2,true,x" initialState
     = (Ok tt,
        enqueued [{| bucket := "b1"; object := "k2"; versionID := "v2";
                     deleteMarker := false |}]
                 [DebugLog "adding b1,k2,v2,true,x to copy queue" None] initialState).
Proof.
  split.
  - vm_compute; lia.
  - rewrite (C10_more_than_four_fields_enqueued Sample.lib "b1,k2,v2,true,x" initialState)
      by (vm_compute; lia).
    vm_compute; reflexivity.
Defined.




(** The run of that manifest with the offset 2: the third line alone is
    enqueued, and the malformed second line is among the skipped. *)
Example skip_two_lines :
  @scanLoop Sample.lib ["b1,k1,v1,false"; "bad-line"; "b1,k2,v2,true"] 2 initialState
  = (Ok tt,
     enqueued [{| bucket := "b1"; object := "k2"; versionID := "v2";
                  deleteMarker := true |}]
              [DebugLog "adding b1,k2,v2,true to copy queue" None] initialState).
Proof. vm_compute; reflexivity. Qed.

(* ================================================================== *)
(** ** Start-up failures *)

(** C8, as the claim states it, fails for the unreadable manifest: the
    flags are given and both clients are built, so [newcopyState] and
    [init] have run when [os.Open] fails and the process exits. *)
Lemma C8_counterexample :
  let w := Sample.world Sample.unreadable Sample.allOK in
  @configErrorOf Sample.lib Sample.ctx w = Some UnreadableManifest
  /\ fst (@run Sample.lib Sample.ctx w) = Exit 1
  /\ Core.created (copyState (snd (@run Sample.lib Sample.ctx w))) = true
  /\ Core.started (copyState (snd (@run Sample.lib Sample.ctx w))) = true.
Proof. repeat split; vm_compute; reflexivity. Qed.

(** C8, amended.  Every fatal configuration error terminates the process
    at once with the exit code 1 and one fatal message.  A missing
    required flag does so before the core is constructed.  An unreadable
    manifest file does so after the core has been constructed and its
    workers started, with nothing enqueued. *)
Theorem C8_fatal_configuration_errors :
  forall (lib : GoLib) (ctx : Context) (w : World) (k : configError),
    configErrorOf ctx w = Some k ->
    exists msg : string,
      run ctx w =
        (Exit 1,
         {| dryRun := match k with
                      | MissingFlag => false
                      | UnreadableManifest => flag_fake ctx
                      end;
            copyState := match k with
                         | MissingFlag => Core.noSession
                         | UnreadableManifest => Core.init Core.newcopyState
                         end;
            console := [FatalLog msg] |}).
Proof.
  intros lib ctx w k. unfold configErrorOf, run.
  destruct (flagsPresent ctx) eqn:H; simpl.
  - destruct (coreStarts ctx) eqn:C; simpl; [|discriminate].
    destruct (openManifest ctx w) as [file|e] eqn:O; simpl; [discriminate|].
    intros K; injection K as <-.
    rewrite (copyAction_started ctx w initialState C), O.
    eexists; reflexivity.
  - intros K; injection K as <-.
    destruct (copyAction_missing ctx w initialState H) as [msg E].
    exists msg; rewrite E; reflexivity.
Qed.

Lemma C8_fatal_configuration_errors_witness :
  @configErrorOf Sample.lib (Sample.withBucket "" Sample.ctx)
                 (Sample.world (Sample.manifest ["b1,k1,v1,false"]) Sample.allOK)
  = Some MissingFlag
  /\ fst (@run Sample.lib (Sample.withBucket "" Sample.ctx)
               (Sample.world (Sample.manifest ["b1,k1,v1,false"]) Sample.allOK))
     = Exit 1
  /\ copyState (snd (@run Sample.lib (Sample.withBucket "" Sample.ctx)
                          (Sample.world (Sample.manifest ["b1,k1,v1,false"])
                                        Sample.allOK)))
     = Core.noSession.
Proof.
  split; [vm_compute; reflexivity|].
  destruct (C8_fatal_configuration_errors Sample.lib (Sample.withBucket "" Sample.ctx)
              (Sample.world (Sample.manifest ["b1,k1,v1,false"]) Sample.allOK) MissingFlag)
    as [msg R].
  - vm_compute; reflexivity.
  - rewrite R; split; reflexivity.
Defined.

(** C9.  If the construction of the source client or of the target
    client fails, the run aborts with an error before any record is
    processed or enqueued: with the required flags given, [copyAction]
    returns the error could not initialize src (or tgt) client, from the
    untouched initial state; with one of them missing the process has
    left already, on the flag check.  In both cases no session exists and
    the manifest has not been read. *)
Theorem C9_client_construction_failure :
  forall (lib : GoLib) (ctx : Context) (w : World),
    isError (srcClientOf ctx) = true \/ isError (tgtClientOf ctx) = true ->
    (if flagsPresent ctx
     then exists which e : string,
         (which = "src" \/ which = "tgt")
         /\ run ctx w =
              (Ok (Some ("could not initialize " ++ which ++ " client " ++ e)%string),
               initialState)
     else exists msg : string, run ctx w = (Exit 1, fatal msg initialState))
    /\ copyState (snd (run ctx w)) = Core.noSession.
Proof.
  intros lib ctx w E. unfold run.
  destruct (flagsPresent ctx) eqn:H.
  - assert (C : coreStarts ctx = false).
    { unfold coreStarts; rewrite H; simpl.
      destruct E as [E|E]; rewrite E; simpl; [reflexivity | apply andb_false_r]. }
    destruct (copyAction_client_error ctx w initialState H C) as (wh & e & W & R).
    split; [exists wh, e; split; assumption | rewrite R; reflexivity].
  - destruct (copyAction_missing ctx w initialState H) as [msg R].
    split; [exists msg; exact R | rewrite R; reflexivity].
Qed.

Lemma C9_client_construction_failure_witness :
  isError (@srcClientOf Sample.lib (Sample.withSrcEndpoint "https://bad host" Sample.ctx))
  = true
  /\ copyState
       (snd (@run Sample.lib (Sample.withSrcEndpoint "https://bad host" Sample.ctx)
                  (Sample.world (Sample.manifest ["b1,k1,v1,false"]) Sample.allOK)))
     = Core.noSession.
Proof.
  split; [vm_compute; reflexivity|].
  apply (C9_client_construction_failure Sample.lib
           (Sample.withSrcEndpoint "https://bad host" Sample.ctx)
           (Sample.world (Sample.manifest ["b1,k1,v1,false"]) Sample.allOK)).
  left; vm_compute; reflexivity.
Defined.

(* ================================================================== *)
(** ** After the core has started *)

Lemma no_log_in_adding {lib : GoLib} (lines : list string) :
  existsb isLog (map addingLog lines) = false.
Proof. induction lines; simpl; auto. Qed.

(** The session of a run whose loop has ended: created, started, with the
    fresh ledger and no gateway call; the loop has only enqueued. *)
Lemma scanLoop_session {lib : GoLib} (lines : list string) (skip : Z) (fake : bool)
      (s : state) :
  let cs := copyState (snd (scanLoop lines skip (coreStarted fake s))) in
  Core.created cs = true /\ Core.started cs = true /\ Core.drained cs = false
  /\ Core.led cs = Core.newLedger /\ Core.calls cs = [].
Proof.
  destruct (scanLoop_frame lines skip (coreStarted fake s)) as (rs & logs & E).
  simpl; rewrite E; simpl; repeat split; reflexivity.
Qed.

(** C4, as the claim states it, fails: the flags are given and both
    clients are built, so the core has started; with an unreadable
    manifest the process exits, and with a scanner error [copyAction]
    returns the error.  In neither run is there a drain or a summary. *)
Lemma C4_counterexample :
  let unread := @run Sample.lib Sample.ctx (Sample.world Sample.unreadable Sample.allOK) in
  let trunc := @run Sample.lib Sample.ctx
                    (Sample.world (Sample.truncated ["b1,k1,v1,false"]) Sample.allOK) in
  @coreStarts Sample.lib Sample.ctx = true
  /\ fst unread = Exit 1
  /\ Core.started (copyState (snd unread)) = true
  /\ Core.drained (copyState (snd unread)) = false
  /\ existsb isLog (console (snd unread)) = false
  /\ fst trunc = Ok (Some "bufio.Scanner: token too long")
  /\ Core.started (copyState (snd trunc)) = true
  /\ Core.drained (copyState (snd trunc)) = false
  /\ existsb isLog (console (snd trunc)) = false.
Proof. repeat split; vm_compute; reflexivity. Qed.

(** C4, amended.  Once the core has started, a run whose manifest opens,
    whose scanner reports no error and whose lines after the skipped ones
    all have at least four comma-separated fields completes: it drains
    the queue and its last line is the summary.  An unreadable manifest
    is fatal though the core has started: the process exits with no drain
    and no summary.  A scanner error is returned by [copyAction] after
    the lines read so far were enqueued, with no drain and no summary. *)
Theorem C4_run_after_core_start :
  forall (lib : GoLib) (ctx : Context) (w : World),
    coreStarts ctx = true ->
    Forall fourPieces (skipn (Z.to_nat (flag_skip ctx)) (manifestLines ctx w)) ->
    exists s' : state,
      Core.started (copyState s') = true
      /\ match openManifest ctx w with
         | Error e =>
             run ctx w = (Exit 1, s')
             /\ Core.drained (copyState s') = false
             /\ existsb isLog (console s') = false
         | Value file =>
             run ctx w = (Ok (fileErr file), s')
             /\ match fileErr file with
                | None =>
                    Core.drained (copyState s') = true
                    /\ Core.queue (copyState s') = []
                    /\ exists before : list output,
                        console s'
                        = before ++ [summaryLine (flag_fake ctx) w (copyState s')]
                | Some _ =>
                    Core.drained (copyState s') = false
                    /\ existsb isLog (console s') = false
                end
         end.
Proof.
  intros lib ctx w C F. unfold run, manifestLines in *.
  destruct (openManifest ctx w) as [file|e] eqn:O.
  - pose proof (scanLoop_skipn (fileLines file) (flag_skip ctx)
                               (coreStarted (flag_fake ctx) initialState)) as K.
    rewrite (scanLoop_four _ _ F) in K.
    destruct (fileErr file) as [e|] eqn:Fe.
    + rewrite (copyAction_scan_error ctx w _ _ file e C O Fe K).
      eexists; split; [|split; [reflexivity|split]]; try reflexivity.
      simpl. rewrite existsb_app, no_log_in_adding; reflexivity.
    + rewrite (copyAction_completes ctx w _ _ file C O Fe K).
      eexists; split; [|split; [reflexivity|]].
      * unfold reported; simpl.
        apply (finish_session (gateway w) (flag_fake ctx)).
      * unfold reported; simpl.
        destruct (finish_session (gateway w) (flag_fake ctx)
                    (copyState (enqueued
                       (map recordOf (skipn (Z.to_nat (flag_skip ctx)) (fileLines file)))
                       (map addingLog (skipn (Z.to_nat (flag_skip ctx)) (fileLines file)))
                       (coreStarted (flag_fake ctx) initialState))))
          as (_ & _ & Q & D & _).
        split; [exact D | split; [exact Q | eexists; reflexivity]].
  - rewrite (copyAction_started ctx w initialState C), O.
    eexists; split; [|split; [reflexivity|split]]; reflexivity.
Qed.

Lemma C4_run_after_core_start_witness :
  let r := @run Sample.lib Sample.ctx
                (Sample.world (Sample.manifest ["b1,k1,v1,false"; "b1,k2,v2,true"])
                              Sample.deleteFails) in
  @coreStarts Sample.lib Sample.ctx = true
  /\ fst r = Ok None
  /\ Core.drained (copyState (snd r)) = true.
Proof.
  intros r.
  destruct (C4_run_after_core_start Sample.lib Sample.ctx
              (Sample.world (Sample.manifest ["b1,k1,v1,false"; "b1,k2,v2,true"])
                            Sample.deleteFails))
    as (s' & _ & R & D & _).
  - vm_compute; reflexivity.
  - repeat constructor.
  - split; [vm_compute; reflexivity|].
    unfold r; simpl in R; rewrite R; split; [reflexivity | exact D].
Defined.

(** Below 2^63 the conversion [int64] changes nothing. *)
Lemma int64_small (x : Z) : (0 <= x < 2 ^ 63)%Z -> int64 x = x.
Proof.
  intros B. unfold int64.
  rewrite Z.mod_small by lia. lia.
Qed.

(** Drain has returned only in a run that returns [nil]. *)
Lemma run_drained_nil {lib : GoLib} (ctx : Context) (w : World) :
  Core.drained (copyState (snd (run ctx w))) = true ->
  fst (run ctx w) = Ok None.
Proof.
  unfold run.
  destruct (flagsPresent ctx) eqn:H.
  2:{ destruct (copyAction_missing ctx w initialState H) as [m ->]; discriminate. }
  destruct (coreStarts ctx) eqn:C.
  2:{ destruct (copyAction_client_error ctx w initialState H C) as (wh & e & _ & ->).
      discriminate. }
  destruct (openManifest ctx w) as [file|e] eqn:O.
  2:{ rewrite (copyAction_started ctx w initialState C), O; discriminate. }
  pose proof (scanLoop_session (fileLines file) (flag_skip ctx) (flag_fake ctx) initialState)
    as S1.
  destruct (scanLoop (fileLines file) (flag_skip ctx)
                     (coreStarted (flag_fake ctx) initialState)) as [r s1] eqn:L.
  simpl in S1. destruct S1 as (_ & _ & D & _).
  destruct r as [[]|c|p].
  - destruct (fileErr file) as [e|] eqn:Fe.
    + rewrite (copyAction_scan_error ctx w initialState s1 file e C O Fe L).
      simpl; congruence.
    + rewrite (copyAction_completes ctx w initialState s1 file C O Fe L); reflexivity.
  - rewrite (copyAction_loop_stops ctx w initialState s1 file _ C O L) by discriminate.
    simpl; congruence.
  - rewrite (copyAction_loop_stops ctx w initialState s1 file _ C O L) by discriminate.
    simpl; congruence.
Qed.

(** C5.  After drain has returned, [copyAction] returns [nil] and the
    last line written is the summary.  In live mode it reads Copied S / A
    objects with latency T secs, where S is [getCount() - getFailCount()],
    A is [getCount()], both through [int64] and [humanize.Comma], and T
    is the elapsed time in whole seconds.  In dry-run mode it is the
    notice copy dry run complete, with no count and no time.  The
    counters read are those of the drained session, and the failed
    counter does not exceed the processed one. *)
Theorem C5_final_line :
  forall (lib : GoLib) (ctx : Context) (w : World),
    Core.drained (copyState (snd (run ctx w))) = true ->
    let cs := copyState (snd (run ctx w)) in
    fst (run ctx w) = Ok None
    /\ (0 <= Core.getFailCount cs <= Core.getCount cs)%Z
    /\ exists before : list output,
        console (snd (run ctx w))
        = before
          ++ [Log (if flag_fake ctx then "copy dry run complete"
                   else ("Copied "
                         ++ humanize_Comma
                              (int64 (Core.getCount cs - Core.getFailCount cs))
                         ++ " / "
                         ++ humanize_Comma (int64 (Core.getCount cs))
                         ++ " objects with latency "
                         ++ fmt_d (elapsedSecs w) ++ " secs")%string)].
Proof.
  intros lib ctx w D cs.
  pose proof (run_drained_nil ctx w D) as R.
  destruct (run ctx w) as [r s'] eqn:E; simpl in R, cs; subst r cs.
  unfold run in E.
  destruct (copyAction_nil_inv ctx w initialState s' E) as (file & s1 & C & O & Fe & L & ->).
  pose proof (scanLoop_session (fileLines file) (flag_skip ctx) (flag_fake ctx) initialState)
    as S1.
  rewrite L in S1; simpl in S1. destruct S1 as (_ & _ & _ & Ld & _).
  destruct (finish_session (gateway w) (flag_fake ctx) (copyState s1))
    as (_ & _ & _ & _ & Lf & _).
  pose proof (workAll_counts (gateway w) (flag_fake ctx) (Core.queue (copyState s1))
                             (Core.led (copyState s1))) as N.
  simpl in N. rewrite <- Lf, Ld in N. simpl in N.
  unfold reported, Core.getCount, Core.getFailCount; simpl.
  split; [reflexivity | split; [lia|]].
  eexists; reflexivity.
Qed.

Lemma C5_final_line_witness :
  let r := @run Sample.lib Sample.ctx
                (Sample.world (Sample.manifest ["b1,k1,v1,false"; "b1,k2,v2,true"])
                              Sample.deleteFails) in
  Core.drained (copyState (snd r)) = true
  /\ fst r = Ok None
  /\ (0 <= Core.getFailCount (copyState (snd r)) <= Core.getCount (copyState (snd r)))%Z.
Proof.
  intros r. split; [vm_compute; reflexivity|].
  destruct (C5_final_line Sample.lib Sample.ctx
              (Sample.world (Sample.manifest ["b1,k1,v1,false"; "b1,k2,v2,true"])
                            Sample.deleteFails)) as (R & N & _).
  - vm_compute; reflexivity.
  - split; [exact R | exact N].
Defined.

(** The same run, evaluated: one record copied, one delete refused. *)
Example run_delete_refused :
  @run Sample.lib Sample.ctx
       (Sample.world (Sample.manifest ["b1,k1,v1,false"; "b1,k2,v2,true"])
                     Sample.deleteFails)
  = (Ok None,
     {| dryRun := false;
        copyState :=
          {| Core.created := true; Core.started := true; Core.queue := [];
             Core.drained := true;
             Core.led := {| Core.processed := 2; Core.failed := 1 |};
             Core.calls :=
               [SrcGet {| bucket := "b1"; object := "k1"; versionID := "v1";
                          deleteMarker := false |};
                TgtPut {| bucket := "b1"; object := "k1"; versionID := "v1";
                          deleteMarker := false |};
                TgtDelete {| bucket := "b1"; object := "k2"; versionID := "v2";
                             deleteMarker := true |}] |};
        console :=
          [DebugLog "adding b1,k1,v1,false to copy queue" None;
           DebugLog "adding b1,k2,v2,true to copy queue" None;
           Replicated {| bucket := "b1"; object := "k1"; versionID := "v1";
                         deleteMarker := false |};
           ReplicationFailed {| bucket := "b1"; object := "k2"; versionID := "v2";
                                deleteMarker := true |};
           Log "Copied 1 / 2 objects with latency 3 secs"] |}).
Proof. vm_compute; reflexivity. Qed.

(** The dry run over the same manifest. *)
Example run_dry :
  let r := @run Sample.lib (withFake true Sample.ctx)
                (Sample.world (Sample.manifest ["b1,k1,v1,false"; "b1,k2,v2,true"])
                              Sample.deleteFails) in
  fst r = Ok None
  /\ Core.led (copyState (snd r)) = {| Core.processed := 2; Core.failed := 0 |}
  /\ Core.calls (copyState (snd r)) = []
  /\ last (console (snd r)) (Log "") = Log "copy dry run complete".
Proof. repeat split; vm_compute; reflexivity. Qed.

(* ================================================================== *)
(** ** Dry run and live run *)

(** C7.  For every manifest, and whatever the gateways answer, the run
    with [--fake] and the run without it end alike and leave the same
    value in the processed counter, and the run with [--fake] makes no
    call to a Storage Gateway: no read, no write, no delete.  The workers
    are those of section 4.2 of the specification. *)
Theorem C7_dry_run_counts_like_live :
  forall (lib : GoLib) (ctx : Context) (w : World),
    fst (run (withFake true ctx) w) = fst (run (withFake false ctx) w)
    /\ Core.getCount (copyState (snd (run (withFake true ctx) w)))
       = Core.getCount (copyState (snd (run (withFake false ctx) w)))
    /\ Core.calls (copyState (snd (run (withFake true ctx) w))) = [].
Proof.
  intros lib ctx w. unfold run.
  destruct (flagsPresent ctx) eqn:H.
  2:{ destruct (copyAction_missing (withFake true ctx) w initialState H) as [m1 ->].
      destruct (copyAction_missing (withFake false ctx) w initialState H) as [m2 ->].
      repeat split. }
  destruct (srcClientOf ctx) as [src|e] eqn:Es.
  2:{ rewrite (copyAction_src_error (withFake true ctx) w initialState e H Es).
      rewrite (copyAction_src_error (withFake false ctx) w initialState e H Es).
      repeat split. }
  assert (Es' : isError (srcClientOf ctx) = false) by (rewrite Es; reflexivity).
  destruct (tgtClientOf ctx) as [tgt|e] eqn:Et.
  2:{ rewrite (copyAction_tgt_error (withFake true ctx) w initialState e H Es' Et).
      rewrite (copyAction_tgt_error (withFake false ctx) w initialState e H Es' Et).
      repeat split. }
  assert (C : coreStarts ctx = true).
  { unfold coreStarts; rewrite H, Es, Et; reflexivity. }
  destruct (openManifest ctx w) as [file|e] eqn:O.
  2:{ rewrite (copyAction_started (withFake true ctx) w initialState C).
      rewrite (copyAction_started (withFake false ctx) w initialState C).
      rewrite openManifest_withFake, openManifest_withFake, O.
      repeat split. }
  pose proof (scanLoop_withDryRun true (fileLines file) (flag_skip ctx)
                                  (coreStarted false initialState)) as LT.
  pose proof (scanLoop_session (fileLines file) (flag_skip ctx) false initialState) as S1.
  destruct (scanLoop (fileLines file) (flag_skip ctx) (coreStarted false initialState))
    as [r s1] eqn:LF.
  simpl in LT, S1. destruct S1 as (_ & _ & _ & Ld & Cl).
  destruct r as [[]|c|p].
  - destruct (fileErr file) as [e|] eqn:Fe.
    + rewrite (copyAction_scan_error (withFake true ctx) w initialState _ file e C O Fe LT).
      rewrite (copyAction_scan_error (withFake false ctx) w initialState _ file e C O Fe LF).
      simpl. repeat split. exact Cl.
    + rewrite (copyAction_completes (withFake true ctx) w initialState _ file C O Fe LT).
      rewrite (copyAction_completes (withFake false ctx) w initialState _ file C O Fe LF).
      unfold reported, Core.getCount; simpl.
      destruct (finish_session (gateway w) true (copyState s1))
        as (_ & _ & _ & _ & L1 & C1).
      destruct (finish_session (gateway w) false (copyState s1))
        as (_ & _ & _ & _ & L2 & _).
      pose proof (workAll_counts (gateway w) true (Core.queue (copyState s1))
                                 (Core.led (copyState s1))) as N1.
      pose proof (workAll_counts (gateway w) false (Core.queue (copyState s1))
                                 (Core.led (copyState s1))) as N2.
      simpl in N1, N2.
      split; [reflexivity | split].
      * rewrite L1, L2; lia.
      * rewrite C1, Cl, workAll_dry_calls; reflexivity.
  - assert (N : @Exit unit c <> Ok tt) by discriminate.
    rewrite (copyAction_loop_stops (withFake true ctx) w initialState _ file _ C O LT N).
    rewrite (copyAction_loop_stops (withFake false ctx) w initialState _ file _ C O LF N).
    simpl. repeat split. exact Cl.
  - assert (N : @Panicked unit p <> Ok tt) by discriminate.
    rewrite (copyAction_loop_stops (withFake true ctx) w initialState _ file _ C O LT N).
    rewrite (copyAction_loop_stops (withFake false ctx) w initialState _ file _ C O LF N).
    simpl. repeat split. exact Cl.
Qed.

(** A run that completes has processed one record for each line after
    the skipped ones. *)
Lemma run_processed_count {lib : GoLib} (ctx : Context) (w : World) (s' : state) :
  run ctx w = (Ok None, s') ->
  Core.getCount (copyState s')
  = Z.of_nat (length (skipn (Z.to_nat (flag_skip ctx)) (manifestLines ctx w))).
Proof.
  intros R. unfold run in R.
  destruct (copyAction_nil_inv ctx w initialState s' R) as (file & s1 & C & O & Fe & L & ->).
  unfold manifestLines; rewrite O.
  rewrite scanLoop_skipn in L.
  assert (F : Forall fourPieces (skipn (Z.to_nat (flag_skip ctx)) (fileLines file))).
  { revert L. generalize (coreStarted (flag_fake ctx) initialState).
    induction (skipn (Z.to_nat (flag_skip ctx)) (fileLines file)) as [|o rest IH];
      intros s0 L; [constructor|].
    simpl scanLoop in L. unfold bind in L.
    destruct (Nat.lt_ge_cases (length (fields o)) 3) as [A|A].
    { rewrite loopBody_short in L by exact A; discriminate L. }
    destruct (Nat.eq_dec (length (fields o)) 3) as [B|B].
    { rewrite loopBody_three in L by exact B; discriminate L. }
    assert (P : fourPieces o) by (unfold fourPieces; lia).
    rewrite (loopBody_four o s0 P) in L.
    constructor; [exact P | exact (IH _ L)]. }
  rewrite (scanLoop_four _ _ F) in L. injection L as <-.
  unfold reported, Core.getCount; cbn [copyState].
  destruct (finish_session (gateway w) (flag_fake ctx)
              (copyState (enqueued
                 (map recordOf (skipn (Z.to_nat (flag_skip ctx)) (fileLines file)))
                 (map addingLog (skipn (Z.to_nat (flag_skip ctx)) (fileLines file)))
                 (coreStarted (flag_fake ctx) initialState))))
    as (_ & _ & _ & _ & Lf & _).
  rewrite Lf.
  match goal with
  | [ |- context [Core.workAll ?d ?g ?q ?l] ] =>
      pose proof (workAll_counts g d q l) as N
  end.
  cbv zeta in N. destruct N as [N _]. rewrite N.
  cbn [copyState enqueued coreStarted Core.queue Core.led Core.init Core.newcopyState
       Core.newLedger Core.processed app].
  rewrite length_map; reflexivity.
Qed.

(* ================================================================== *)
(** ** The ledger *)

(** C6.  In every state that a pool of workers reaches, however their
    atomic increments interleave: the failed counter is at least 0 and at
    most the processed counter; the processed counter has been
    incremented exactly once for each task already handled and each task
    a worker is in the middle of recording as failed, and the failed
    counter exactly once for each task handled that failed, so that with
    all workers idle processed is the number of completed tasks and
    failed the number of those that failed; and a further step leaves
    each counter as it is or adds one to it, and never takes from it.
    The ledger and the workers are those of sections 4.2 and 4.4 of the
    specification. *)
Theorem C6_ledger_counters :
  forall (workers : nat) (p : Core.pool),
    Core.reachable workers p ->
    (0 <= Core.failed (Core.poolLedger p) <= Core.processed (Core.poolLedger p))%Z
    /\ Core.processed (Core.poolLedger p)
       = (Core.completedOk p + Core.completedFailed p
          + Core.failingCount (Core.phases p))%Z
    /\ Core.failed (Core.poolLedger p) = Core.completedFailed p
    /\ (Core.quiescent p ->
        Core.processed (Core.poolLedger p)
        = (Core.completedOk p + Core.completedFailed p)%Z)
    /\ (forall q : Core.pool,
          Core.poolStep p q ->
          (Core.processed (Core.poolLedger q) = Core.processed (Core.poolLedger p)
           \/ Core.processed (Core.poolLedger q)
              = (Core.processed (Core.poolLedger p) + 1)%Z)
          /\ (Core.failed (Core.poolLedger q) = Core.failed (Core.poolLedger p)
              \/ Core.failed (Core.poolLedger q)
                 = (Core.failed (Core.poolLedger p) + 1)%Z)).
Proof.
  intros workers p R.
  destruct (reachable_accounts workers p R) as (P & F & A & B).
  pose proof (failingCount_nonneg (Core.phases p)) as G.
  split; [lia | split; [exact P | split; [exact F | split]]].
  - intros Q. rewrite P, (failingCount_quiescent _ Q); lia.
  - intros q St. destruct St; simpl; auto.
Qed.

Lemma C6_ledger_counters_witness :
  let p1 := {| Core.poolLedger := Core.incProcessed Core.newLedger;
               Core.phases := [Core.Failing; Core.Idle];
               Core.completedOk := 0;
               Core.completedFailed := 0 |} in
  Core.reachable 2 p1
  /\ (0 <= Core.failed (Core.poolLedger p1) <= Core.processed (Core.poolLedger p1))%Z.
Proof.
  intros p1.
  assert (R : Core.reachable 2 p1).
  { apply (Core.ReachStep 2 (Core.startPool 2) p1 (Core.ReachStart 2)).
    exact (Core.StepFailedCount (Core.startPool 2) 0 eq_refl). }
  split; [exact R|].
  exact (proj1 (C6_ledger_counters 2 p1 R)).
Defined.

(* ================================================================== *)
(** ** Further properties: the split and the loop body *)

Lemma Join_firstn_skipn (t : string) (n : nat) (fs : list string) :
  (n < length fs)%nat ->
  Strings.Join (firstn n fs ++ [Strings.Join (skipn n fs) t]) t = Strings.Join fs t.
Proof.
  revert fs; induction n as [|n IH]; intros fs L.
  - reflexivity.
  - destruct fs as [|f fs]; simpl in L; [lia|].
    assert (L' : (n < length fs)%nat) by lia.
    simpl firstn. simpl skipn. simpl app.
    rewrite Join_cons by (destruct (firstn n fs); discriminate).
    rewrite (IH fs L').
    rewrite Join_cons by (destruct fs; [simpl in L'; lia | discriminate]).
    reflexivity.
Qed.

(** X3.  The pieces of [strings.SplitN(s, sep, n)] for a positive count
    [n]: there is at least one and there are at most [n], as many as the
    string has fields when these are at most [n]; joined again with the
    separator they give the string back, so the split drops no byte.  For
    the call of line 222 the slice has between one and four pieces: it is
    never empty and never longer than four. *)
Theorem X3_SplitN_round_trip :
  forall (s : string) (sep : ascii) (n : nat),
    (1 <= length (Strings.SplitN s sep (S n)) <= S n)%nat
    /\ length (Strings.SplitN s sep (S n))
       = Nat.min (S n) (length (Strings.Split s sep))
    /\ Strings.Join (Strings.SplitN s sep (S n)) (String sep EmptyString) = s.
Proof.
  intros s sep n.
  rewrite SplitN_fields.
  pose proof (Split_not_nil sep s) as NE.
  pose proof (Join_Split sep s) as J.
  destruct (Nat.leb_spec (length (Strings.Split s sep)) (S n)) as [L|L].
  - destruct (Strings.Split s sep) as [|f fs]; [congruence|].
    simpl length in *. repeat split; try lia. exact J.
  - rewrite length_app, length_firstn. simpl length.
    repeat split; try lia.
    rewrite Join_firstn_skipn by lia. exact J.
Qed.

(** X1.  A line of exactly four comma-separated fields that the loop body
    reaches is enqueued as the record of its trimmed fields: bucket,
    object and versionID are the first three, and the delete-marker flag
    is true exactly when the trimmed fourth field is the text true.  The
    only line written is the one that follows the enqueue; nothing else
    of the state changes. *)
Theorem X1_four_fields_record :
  forall (lib : GoLib) (o b k v d : string) (s : state),
    fields o = [b; k; v; d] ->
    loopBody o s =
      (Ok tt,
       {| dryRun := dryRun s;
          copyState :=
            Core.queueUploadTask
              {| bucket := TrimSpace b; object := TrimSpace k;
                 versionID := TrimSpace v;
                 deleteMarker := (TrimSpace d =? "true") |}
              (copyState s);
          console := console s
                     ++ [DebugLog ("adding " ++ o ++ " to copy queue")%string None] |}).
Proof.
  intros lib o b k v d s E.
  rewrite loopBody_four by (unfold fourPieces; rewrite E; simpl; lia).
  unfold recordOf; rewrite E; reflexivity.
Qed.

Lemma X1_four_fields_record_witness :
  fields " b1 , k2,v2 , true " = [" b1 "; " k2"; "v2 "; " true "]
  /\ @loopBody Sample.lib " b1 , k2,v2 , true " initialState
     = (Ok tt,
        enqueued [{| bucket := "b1"; object := "k2"; versionID := "v2";
                     deleteMarker := true |}]
                 [DebugLog "adding  b1 , k2,v2 , true  to copy queue" None] initialState).
Proof.
  split; [vm_compute; reflexivity|].
  rewrite (X1_four_fields_record Sample.lib " b1 , k2,v2 , true "
             " b1 " " k2" "v2 " " true " initialState) by (vm_compute; reflexivity).
  vm_compute; reflexivity.
Defined.

(** A line of fewer than four fields, in the terms of [enqueued]. *)
Lemma loopBody_lt4 {lib : GoLib} (o : string) (s : state) :
  (length (fields o) < 4)%nat ->
  loopBody o s =
    (Panicked (IndexOutOfRange (length (fields o)) (length (fields o))),
     enqueued [] (shortLog o) s).
Proof.
  intros L. unfold shortLog.
  destruct (Nat.ltb_spec (length (fields o)) 3) as [A|A].
  - apply loopBody_short; exact A.
  - assert (E : length (fields o) = 3%nat) by lia.
    rewrite (loopBody_three o s E), E, enqueued_nil; reflexivity.
Qed.

(** X2.  A line of fewer than four comma-separated fields that the loop
    body reaches, the empty line among them, ends in a panic of the
    runtime: index out of range \[n\] with length n, where n is the
    number of its fields.  Nothing is enqueued.  With fewer than three
    fields the report error processing line is written before the panic;
    with exactly three nothing is written. *)
Theorem X2_short_line_panics :
  forall (lib : GoLib) (o : string) (s : state),
    (length (fields o) < 4)%nat ->
    loopBody o s =
      (Panicked (IndexOutOfRange (length (fields o)) (length (fields o))),
       {| dryRun := dryRun s;
          copyState := copyState s;
          console :=
            console s
            ++ (if (length (fields o) <? 3)%nat
                then [DebugLog ("error processing line :" ++ o ++ " ")%string None]
                else []) |}).
Proof.
  intros lib o s L.
  rewrite (loopBody_lt4 o s L).
  unfold enqueued, shortLog, errorLog.
  destruct s as [d [c st q dr l cl] out]; simpl.
  rewrite app_nil_r; reflexivity.
Qed.

Lemma X2_short_line_panics_witness :
  (length (fields "") < 4)%nat
  /\ @loopBody Sample.lib "" initialState
     = (Panicked (IndexOutOfRange 1 1),
        enqueued [] [DebugLog "error processing line : " None] initialState).
Proof.
  split; [vm_compute; lia|].
  rewrite (X2_short_line_panics Sample.lib "" initialState) by (vm_compute; lia).
  vm_compute; reflexivity.
Defined.

(* ================================================================== *)
(** ** Further properties: the scanner loop *)

Section LoopFacts.

Context {lib : GoLib}.

(** The loop over two runs of lines, with nothing to skip. *)
Lemma scanLoop_app (a b : list string) (s : state) :
  scanLoop (a ++ b) 0 s = (scanLoop a 0 ;; scanLoop b 0) s.
Proof.
  revert s; induction a as [|o a IH]; intros s; [reflexivity|].
  simpl app. simpl scanLoop. unfold bind.
  destruct (loopBody o s) as [[[]|c|p] s1]; try reflexivity.
  rewrite IH; reflexivity.
Qed.

Lemma firstShort_None (lines : list string) :
  firstShort lines = None <-> Forall fourPieces lines.
Proof.
  induction lines as [|o rest IH]; simpl.
  - split; [constructor | reflexivity].
  - destruct (Nat.ltb_spec (length (fields o)) 4) as [A|A].
    + split; [discriminate|].
      intros F; inversion F as [|? ? P _]; unfold fourPieces in P; lia.
    + rewrite IH. split.
      * intros F; constructor; [exact A | exact F].
      * intros F; inversion F; assumption.
Qed.

(** How the loop ends, by the first line of fewer than four fields. *)
Lemma scanLoop_outcome (lines : list string) (s : state) :
  fst (scanLoop lines 0 s) =
    match firstShort lines with
    | Some n => Panicked (IndexOutOfRange n n)
    | None => Ok tt
    end.
Proof.
  revert s; induction lines as [|o rest IH]; intros s; [reflexivity|].
  simpl scanLoop. simpl firstShort. unfold bind.
  destruct (Nat.ltb_spec (length (fields o)) 4) as [A|A].
  - rewrite (loopBody_lt4 o s A); reflexivity.
  - rewrite (loopBody_four o s A). apply IH.
Qed.

End LoopFacts.

(** X4.  The loop stops at the first line of fewer than four fields: the
    lines before it are enqueued, in the order of the manifest, each
    followed by its adding line; on the short line the loop panics as the
    loop body does; the lines after it are never read, whatever they
    are. *)
Theorem X4_loop_stops_at_first_short_line :
  forall (lib : GoLib) (good : list string) (bad : string) (rest : list string)
         (s : state),
    Forall fourPieces good ->
    (length (fields bad) < 4)%nat ->
    scanLoop (good ++ bad :: rest) 0 s =
      (Panicked (IndexOutOfRange (length (fields bad)) (length (fields bad))),
       enqueued (map recordOf good) (map addingLog good ++ shortLog bad) s).
Proof.
  intros lib good bad rest s G B.
  rewrite scanLoop_app. unfold bind at 1.
  rewrite (scanLoop_four good s G).
  simpl scanLoop. unfold bind.
  rewrite (loopBody_lt4 bad _ B), enqueued_enqueued, app_nil_r; reflexivity.
Qed.

Lemma X4_loop_stops_at_first_short_line_witness :
  Forall (@fourPieces) ["b1,k1,v1,false"]
  /\ (length (fields "b1,k2,v2") < 4)%nat
  /\ @scanLoop Sample.lib ["b1,k1,v1,false"; "b1,k2,v2"; "b1,k3,v3,true"] 0 initialState
     = (Panicked (IndexOutOfRange 3 3),
        enqueued [{| bucket := "b1"; object := "k1"; versionID := "v1";
                     deleteMarker := false |}]
                 [DebugLog "adding b1,k1,v1,false to copy queue" None] initialState).
Proof.
  assert (G : Forall (@fourPieces) ["b1,k1,v1,false"]).
  { constructor; [vm_compute; lia | constructor]. }
  assert (B : (length (fields "b1,k2,v2") < 4)%nat) by (vm_compute; lia).
  split; [exact G | split; [exact B|]].
  refine (eq_trans (X4_loop_stops_at_first_short_line Sample.lib ["b1,k1,v1,false"]
                      "b1,k2,v2" ["b1,k3,v3,true"] initialState G B) _).
  vm_compute; reflexivity.
Defined.

(** X5.  The loop returns exactly when every line after the skipped ones
    has at least four comma-separated fields.  It has then enqueued one
    record for each of these lines, in the order of the manifest, and
    written one adding line for each.  The loop never exits the
    process. *)
Theorem X5_loop_returns_iff_four_fields :
  forall (lib : GoLib) (lines : list string) (skip : Z) (s : state),
    (fst (scanLoop lines skip s) = Ok tt
     <-> Forall fourPieces (skipn (Z.to_nat skip) lines))
    /\ (fst (scanLoop lines skip s) = Ok tt ->
        snd (scanLoop lines skip s)
        = enqueued (map recordOf (skipn (Z.to_nat skip) lines))
                   (map addingLog (skipn (Z.to_nat skip) lines)) s)
    /\ (forall c : Z, fst (scanLoop lines skip s) <> Exit c).
Proof.
  intros lib lines skip s.
  rewrite scanLoop_skipn.
  pose proof (scanLoop_outcome (skipn (Z.to_nat skip) lines) s) as O.
  pose proof (firstShort_None (skipn (Z.to_nat skip) lines)) as N.
  assert (I : fst (scanLoop (skipn (Z.to_nat skip) lines) 0 s) = Ok tt
              <-> Forall fourPieces (skipn (Z.to_nat skip) lines)).
  { rewrite O, <- N.
    destruct (firstShort (skipn (Z.to_nat skip) lines)); split; congruence. }
  split; [exact I | split].
  - intros R. apply I in R. rewrite (scanLoop_four _ s R); reflexivity.
  - intros c. rewrite O.
    destruct (firstShort (skipn (Z.to_nat skip) lines)); discriminate.
Qed.

(** X6.  A skip offset that is zero or negative skips nothing: the loop
    with such an offset is the loop with the offset 0. *)
Theorem X6_nonpositive_skip_skips_nothing :
  forall (lib : GoLib) (lines : list string) (skip : Z) (s : state),
    (skip <= 0)%Z ->
    scanLoop lines skip s = scanLoop lines 0 s.
Proof. intros lib lines skip s N. apply scanLoop_nonpos; exact N. Qed.

Lemma X6_nonpositive_skip_skips_nothing_witness :
  (-5 <= 0)%Z
  /\ @scanLoop Sample.lib ["b1,k1,v1,false"] (-5) initialState
     = @scanLoop Sample.lib ["b1,k1,v1,false"] 0 initialState.
Proof.
  split; [lia|].
  apply (X6_nonpositive_skip_skips_nothing Sample.lib ["b1,k1,v1,false"] (-5) initialState).
  lia.
Defined.

(** X7.  With a skip offset of at least the number of lines of the
    manifest no line is parsed: the loop returns and leaves the state as
    it was, with nothing enqueued and nothing written, even when the
    manifest has lines on which the loop body would panic. *)
Theorem X7_skip_past_the_end :
  forall (lib : GoLib) (lines : list string) (skip : Z) (s : state),
    (Z.of_nat (length lines) <= skip)%Z ->
    scanLoop lines skip s = (Ok tt, s).
Proof.
  intros lib lines skip s L.
  rewrite scanLoop_skipn, skipn_all2 by lia.
  reflexivity.
Qed.

Lemma X7_skip_past_the_end_witness :
  (Z.of_nat (length ["bucketOnly"; "b1,k1,v1"]) <= 2)%Z
  /\ @scanLoop Sample.lib ["bucketOnly"; "b1,k1,v1"] 2 initialState = (Ok tt, initialState).
Proof.
  split; [vm_compute; discriminate|].
  apply (X7_skip_past_the_end Sample.lib ["bucketOnly"; "b1,k1,v1"] 2 initialState).
  vm_compute; discriminate.
Defined.

(** X8.  Resuming with the skip offset: the loop over the first k lines
    of a manifest, followed by the loop over the whole manifest with the
    offset k, does what one loop over the whole manifest does; when the
    first part stops in a panic, so does the whole, in the same state. *)
Theorem X8_resume_with_skip :
  forall (lib : GoLib) (lines : list string) (k : nat) (s : state),
    (scanLoop (firstn k lines) 0 ;; scanLoop lines (Z.of_nat k)) s
    = scanLoop lines 0 s.
Proof.
  intros lib lines k s.
  transitivity (scanLoop (firstn k lines ++ skipn k lines) 0 s);
    [|rewrite firstn_skipn; reflexivity].
  rewrite scanLoop_app. unfold bind.
  destruct (scanLoop (firstn k lines) 0 s) as [[[]|c|p] s1]; try reflexivity.
  rewrite scanLoop_skipn, Nat2Z.id; reflexivity.
Qed.

(* ================================================================== *)
(** ** Further properties: the start-up checks and the clients *)

(** X9.  [checkCopyArgsAndInit] reports the first required flag that is
    empty, in the order target endpoint, access key, secret key and
    bucket, source endpoint, access key, secret key and bucket, data
    directory: it writes the message of that flag alone and exits with
    the code 1, whatever the later flags are.  With none empty it returns
    the values read and writes nothing. *)
Theorem X9_first_missing_flag :
  forall (lib : GoLib) (ctx : Context) (s : state),
    checkCopyArgsAndInit ctx s =
      match firstMissing ctx with
      | Some (_, msg) => (Exit 1, fatal msg s)
      | None => (Ok (readFlags ctx), s)
      end.
Proof.
  intros lib ctx s.
  unfold checkCopyArgsAndInit, firstMissing, requiredFlags, bind, when, readFlags.
  simpl.
  repeat match goal with
         | [ |- context [ if (?x =? "") then _ else _ ] ] =>
             destruct (x =? ""); [reflexivity|]
         end.
  reflexivity.
Qed.

(** With its three strings given, [initMinioClient] is [clientFor]. *)
Lemma initMinioClient_given {lib : GoLib} (ctx : Context)
      (accessKey secretKey minioBucket urlStr : string) :
  (accessKey =? "") = false -> (secretKey =? "") = false ->
  (minioBucket =? "") = false ->
  initMinioClient ctx accessKey secretKey minioBucket urlStr
  = clientFor (flag_insecure ctx) accessKey secretKey urlStr.
Proof.
  intros A S B. unfold initMinioClient, clientFor.
  destruct (url_Parse urlStr); [|reflexivity].
  rewrite A, S, B; reflexivity.
Qed.

(** X10.  In [copyAction] the test of [initMinioClient] for a missing
    access key, secret key or bucket never fires: once the flag check has
    passed, the source client and the target client are what the URL and
    [miniogo.New] give, and the only errors of their construction are a
    URL that does not parse and a refusal of [miniogo.New]. *)
Theorem X10_credentials_test_unreachable :
  forall (lib : GoLib) (ctx : Context),
    flagsPresent ctx = true ->
    srcClientOf ctx
    = clientFor (flag_insecure ctx) (flag_src_access_key ctx) (flag_src_secret_key ctx)
                (flag_src_endpoint ctx)
    /\ tgtClientOf ctx
       = clientFor (flag_insecure ctx) (flag_access_key ctx) (flag_secret_key ctx)
                   (flag_endpoint ctx).
Proof.
  intros lib ctx H. apply flagsPresent_true in H.
  destruct H as (H1 & H2 & H3 & H4 & H5 & H6 & H7 & H8 & H9).
  split; apply initMinioClient_given; assumption.
Qed.

Lemma X10_credentials_test_unreachable_witness :
  flagsPresent Sample.ctx = true
  /\ @srcClientOf Sample.lib Sample.ctx
     = Value {| clientEndpoint := "minio1";
                clientOptions := {| CredsAccessKey := "minio1";
                                    CredsSecretKey := "minio123";
                                    Secure := true;
                                    InsecureSkipVerify := false |} |}.
Proof.
  split; [vm_compute; reflexivity|].
  rewrite (proj1 (X10_credentials_test_unreachable Sample.lib Sample.ctx eq_refl)).
  vm_compute; reflexivity.
Defined.

(** X11.  What [initMinioClient] reads when its keys and its bucket are
    given: of the context only the flag [--insecure], and of the bucket
    nothing more than that it is not empty.  Two calls with the same
    non-empty keys and the same URL, the same [--insecure] and two
    non-empty buckets return the same client or the same error: the
    bucket is not part of the client. *)
Theorem X11_initMinioClient_ignores_bucket :
  forall (lib : GoLib) (ctx ctx' : Context)
         (accessKey secretKey bucket1 bucket2 urlStr : string),
    flag_insecure ctx = flag_insecure ctx' ->
    accessKey <> "" -> secretKey <> "" ->
    bucket1 <> "" -> bucket2 <> "" ->
    initMinioClient ctx accessKey secretKey bucket1 urlStr
    = initMinioClient ctx' accessKey secretKey bucket2 urlStr.
Proof.
  intros lib ctx ctx' a s b1 b2 u I A S B1 B2.
  apply String.eqb_neq in A, S, B1, B2.
  rewrite !initMinioClient_given by assumption.
  rewrite I; reflexivity.
Qed.

Lemma X11_initMinioClient_ignores_bucket_witness :
  flag_insecure Sample.ctx = flag_insecure (withFake true Sample.ctx)
  /\ @initMinioClient Sample.lib Sample.ctx "minio1" "minio123" "srcbucket" "https://minio1"
     = @initMinioClient Sample.lib (withFake true Sample.ctx) "minio1" "minio123" "other"
                        "https://minio1".
Proof.
  split; [reflexivity|].
  apply (X11_initMinioClient_ignores_bucket Sample.lib Sample.ctx (withFake true Sample.ctx)
           "minio1" "minio123" "srcbucket" "other" "https://minio1");
    [reflexivity | discriminate | discriminate | discriminate | discriminate].
Defined.

(* ================================================================== *)
(** ** Further properties: how a run ends *)

(** How [copyAction] ends, from any state. *)
Lemma copyAction_outcome {lib : GoLib} (ctx : Context) (w : World) (s : state) :
  fst (copyAction ctx w s) = outcomeOf ctx w.
Proof.
  unfold outcomeOf.
  destruct (flagsPresent ctx) eqn:H; simpl.
  2:{ destruct (copyAction_missing ctx w s H) as [m ->]; reflexivity. }
  destruct (srcClientOf ctx) as [src|e] eqn:Es.
  2:{ rewrite (copyAction_src_error ctx w s e H Es); reflexivity. }
  assert (Es' : isError (srcClientOf ctx) = false) by (rewrite Es; reflexivity).
  destruct (tgtClientOf ctx) as [tgt|e] eqn:Et.
  2:{ rewrite (copyAction_tgt_error ctx w s e H Es' Et); reflexivity. }
  assert (C : coreStarts ctx = true).
  { unfold coreStarts; rewrite H, Es, Et; reflexivity. }
  destruct (openManifest ctx w) as [file|e] eqn:O.
  2:{ rewrite (copyAction_started ctx w s C), O; reflexivity. }
  pose proof (scanLoop_outcome (skipn (Z.to_nat (flag_skip ctx)) (fileLines file))
                               (coreStarted (flag_fake ctx) s)) as Q.
  rewrite <- scanLoop_skipn in Q.
  destruct (scanLoop (fileLines file) (flag_skip ctx) (coreStarted (flag_fake ctx) s))
    as [r s1] eqn:L.
  simpl in Q.
  destruct (firstShort (skipn (Z.to_nat (flag_skip ctx)) (fileLines file))) as [n|].
  - subst r.
    rewrite (copyAction_loop_stops ctx w s s1 file _ C O L) by discriminate.
    reflexivity.
  - subst r. destruct (fileErr file) as [e|] eqn:Fe.
    + rewrite (copyAction_scan_error ctx w s s1 file e C O Fe L); reflexivity.
    + rewrite (copyAction_completes ctx w s s1 file C O Fe L); reflexivity.
Qed.

(** X12.  How a run of [copyAction] ends is decided by its tests in this
    order, whatever the state it starts from: a required flag is missing,
    exit 1; the source client cannot be built, the error could not
    initialize src client; the target client cannot be built, the error
    could not initialize tgt client; the manifest does not open, exit 1;
    a line after the skipped ones has n < 4 fields, the panic index out
    of range \[n\] with length n of the first such line; the scanner
    reports an error, that error; else [nil]. *)
Theorem X12_run_outcome :
  forall (lib : GoLib) (ctx : Context) (w : World) (s : state),
    fst (copyAction ctx w s) = outcomeOf ctx w.
Proof. intros lib ctx w s. apply copyAction_outcome. Qed.

(** The table, read with [coreStarts], [manifestLines] and
    [configErrorOf]. *)
Ltac outcome_cases ctx w :=
  unfold run; rewrite copyAction_outcome;
  unfold outcomeOf, coreStarts, configErrorOf, coreStarts, manifestLines;
  destruct (flagsPresent ctx); simpl;
  [ destruct (srcClientOf ctx); simpl;
    [ destruct (tgtClientOf ctx); simpl;
      [ destruct (openManifest ctx w) as [?file|?e]; simpl | ]
    | ]
  | ].

(** X13.  A run of [copyAction] ends in a panic of the runtime exactly
    when the core has started and some line of the manifest after the
    skipped ones has fewer than four comma-separated fields.  A manifest
    that does not open, a scanner error and a failed client never end in
    a panic. *)
Theorem X13_run_panics_iff :
  forall (lib : GoLib) (ctx : Context) (w : World),
    (exists p : panic, fst (run ctx w) = Panicked p)
    <-> coreStarts ctx = true
        /\ ~ Forall fourPieces (skipn (Z.to_nat (flag_skip ctx)) (manifestLines ctx w)).
Proof.
  intros lib ctx w.
  outcome_cases ctx w.
  - pose proof (firstShort_None (skipn (Z.to_nat (flag_skip ctx)) (fileLines file))) as N.
    destruct (firstShort (skipn (Z.to_nat (flag_skip ctx)) (fileLines file))) as [n|].
    + split; [intros _; split; [reflexivity|] | intros _; eexists; reflexivity].
      intros F; apply N in F; discriminate.
    + split; [intros [p P]; discriminate|].
      intros [_ F]; exfalso; apply F, N; reflexivity.
  - split; [intros [p P]; discriminate|].
    intros [_ F]; exfalso; apply F. rewrite skipn_nil; constructor.
  - split; [intros [p P]; discriminate | intros [D _]; discriminate].
  - split; [intros [p P]; discriminate | intros [D _]; discriminate].
  - split; [intros [p P]; discriminate | intros [D _]; discriminate].
Qed.

(** X14.  A run of [copyAction] returns [nil] exactly when the core has
    started, the manifest opens, the scanner reports no error and every
    line after the skipped ones has at least four comma-separated
    fields. *)
Theorem X14_run_returns_nil_iff :
  forall (lib : GoLib) (ctx : Context) (w : World),
    fst (run ctx w) = Ok None
    <-> coreStarts ctx = true
        /\ (exists file : File, openManifest ctx w = Value file /\ fileErr file = None)
        /\ Forall fourPieces (skipn (Z.to_nat (flag_skip ctx)) (manifestLines ctx w)).
Proof.
  intros lib ctx w.
  outcome_cases ctx w.
  - pose proof (firstShort_None (skipn (Z.to_nat (flag_skip ctx)) (fileLines file))) as N.
    destruct (firstShort (skipn (Z.to_nat (flag_skip ctx)) (fileLines file))) as [n|].
    + split; [discriminate|].
      intros (_ & _ & F); apply N in F; discriminate.
    + split.
      * intros R; injection R as R.
        split; [reflexivity | split; [exists file; auto | apply N; reflexivity]].
      * intros (_ & (f & E & Fe) & _). injection E as <-. rewrite Fe; reflexivity.
  - split; [discriminate | intros (_ & (f & E & _) & _); discriminate].
  - split; [discriminate | intros (D & _); discriminate].
  - split; [discriminate | intros (D & _); discriminate].
  - split; [discriminate | intros (D & _); discriminate].
Qed.

(** X15.  A run of [copyAction] exits the process exactly when a
    required flag is missing or, with the core started, the manifest does
    not open; the exit code is always 1.  Nothing else makes the process
    exit: a client that cannot be built and a scanner error are returned
    as errors. *)
Theorem X15_run_exits_iff :
  forall (lib : GoLib) (ctx : Context) (w : World) (c : Z),
    fst (run ctx w) = Exit c
    <-> c = 1%Z /\ configErrorOf ctx w <> None.
Proof.
  intros lib ctx w c.
  outcome_cases ctx w.
  - destruct (firstShort (skipn (Z.to_nat (flag_skip ctx)) (fileLines file)));
      (split; [discriminate | intros [_ N]; congruence]).
  - split; [intros E; injection E as <-; split; [reflexivity | discriminate]
           | intros [-> _]; reflexivity].
  - split; [discriminate | intros [_ N]; congruence].
  - split; [discriminate | intros [_ N]; congruence].
  - split; [intros E; injection E as <-; split; [reflexivity | discriminate]
           | intros [-> _]; reflexivity].
Qed.
